(** * InterconnectIO slave firmware (firmware/slave.c)

    A shallow embedding of the trace queue, the I2C slave handler and the
    boot sequence of the Pico slave, with the properties of the register
    file, the command dispatch and the queue that the design document
    states.

    Conventions of the embedding
    - C integers are [Z]; a [uint8_t] store is written [to_u8].
    - Arrays are lists read with [array_get] and written with [array_set].
    - The globals [queue], [status] and [context] are fields of the record
      [device], passed through every function that touches them.
    - The Pico SDK (GPIO, pads, watchdog, timer) is behind the class
      [PicoSDK]; the firmware is a function of any implementation of it.
    - The handler runs to completion between two steps of [main]; a
      handler call in the middle of [enque] or [deque] is outside the
      model. *)

From Stdlib Require Import ZArith String Ascii Lia.
From stdpp Require Import base list.

Local Open Scope Z_scope.

(** ** Constants of slave.c *)

Definition MESSAGE_SIZE : Z := 64.
Definition QUEUE_SIZE : Z := 64.

(** [sizeof(int)] on the firmware's target (RP2040, arm-none-eabi, ILP32).
    [MESSAGE_SIZE] is a macro for the literal 64, so [sizeof(MESSAGE_SIZE)]
    in [init_queue] is [sizeof(int)]. *)
Definition sizeof_int : Z := 4.

(** ** Arrays *)

Definition NUL : ascii := Ascii.zero.

(** [a[i]]; an index outside the array is undefined behaviour in C, the
    model reads the default there. *)
Definition array_get {A} (dflt : A) (a : list A) (i : Z) : A :=
  if i <? 0 then dflt else default dflt (a !! Z.to_nat i).

(** [a[i] = x]; an index outside the array is undefined behaviour in C,
    the model leaves the array as it is there. *)
Definition array_set {A} (a : list A) (i : Z) (x : A) : list A :=
  if i <? 0 then a else <[Z.to_nat i := x]> a.

(** [memset(p, 0, n)] over the bytes of one char array. *)
Fixpoint memset0 (n : nat) (bytes : list ascii) : list ascii :=
  match n, bytes with
  | S n', _ :: rest => NUL :: memset0 n' rest
  | _, _ => bytes
  end.

(** ** The message queue (slave.c lines 67-145) *)

Record MESSAGE := { data : list ascii }.

Record queue_t := {
  messages : list MESSAGE;
  begin : Z;
  end_ : Z;
  current_load : Z
}.

Definition zero_MESSAGE : MESSAGE :=
  {| data := replicate (Z.to_nat MESSAGE_SIZE) NUL |}.

(** [memset(&queue.messages[0], 0, n)]: the slots are contiguous, each
    [MESSAGE_SIZE] bytes long, so the first [n] bytes of the array are the
    first bytes of the first slots. *)
Fixpoint memset_messages (n : nat) (ms : list MESSAGE) : list MESSAGE :=
  match ms with
  | [] => []
  | m :: rest =>
      {| data := memset0 n (data m) |}
        :: memset_messages (n - Z.to_nat MESSAGE_SIZE) rest
  end.

(** The slot [enque] writes: [queue.end], wrapped lazily. *)
Definition enque_index (q : queue_t) : Z :=
  if end_ q =? QUEUE_SIZE then 0 else end_ q.

Definition enque (message : MESSAGE) (q : queue_t) : bool * queue_t :=
  if current_load q <? QUEUE_SIZE then
    let e := enque_index q in
    (true,
     {| messages := array_set (messages q) e message;
        begin := begin q;
        end_ := e + 1;
        current_load := current_load q + 1 |})
  else (false, q).

Definition init_queue (q : queue_t) : queue_t :=
  {| begin := 0;
     end_ := 0;
     current_load := 0;
     messages :=
       memset_messages (Z.to_nat (QUEUE_SIZE * sizeof_int)) (messages q) |}.

(** [deque] returns [Some m] where the C function returns true with
    [*message = m], and [None] where it returns false and leaves
    [*message] alone. *)
Definition deque (q : queue_t) : option MESSAGE * queue_t :=
  if 0 <? current_load q then
    let m := array_get zero_MESSAGE (messages q) (begin q) in
    (Some m,
     {| messages :=
          array_set (messages q) (begin q)
            {| data := memset0 (Z.to_nat MESSAGE_SIZE) (data m) |};
        begin := Z.rem (begin q + 1) QUEUE_SIZE;
        end_ := end_ q;
        current_load := current_load q - 1 |})
  else (None, q).

(** Sequences of queue operations and what each returned. *)
Inductive queue_op := Enque (m : MESSAGE) | Deque.
Inductive queue_res := Enqued (ok : bool) | Dequed (m : option MESSAGE).

Definition queue_step (op : queue_op) (q : queue_t) : queue_res * queue_t :=
  match op with
  | Enque m => let r := enque m q in (Enqued r.1, r.2)
  | Deque => let r := deque q in (Dequed r.1, r.2)
  end.

Fixpoint queue_run (ops : list queue_op) (q : queue_t)
  : list queue_res * queue_t :=
  match ops with
  | [] => ([], q)
  | op :: rest =>
      let r := queue_step op q in
      let rs := queue_run rest r.2 in
      (r.1 :: rs.1, rs.2)
  end.

(** The live records, oldest first: [current_load] slots from [begin],
    wrapping at [QUEUE_SIZE]. *)
Fixpoint window (ms : list MESSAGE) (i : Z) (n : nat) : list MESSAGE :=
  match n with
  | O => []
  | S n' => array_get zero_MESSAGE ms i :: window ms (Z.rem (i + 1) QUEUE_SIZE) n'
  end.

Definition contents (q : queue_t) : list MESSAGE :=
  window (messages q) (begin q) (Z.to_nat (current_load q)).


(** Number of records enqueued and not yet dequeued, from the results of
    a run: successful enqueues minus successful dequeues. *)
Definition enq_ok (r : queue_res) : Z :=
  match r with Enqued true => 1 | _ => 0 end.
Definition deq_ok (r : queue_res) : Z :=
  match r with Dequed (Some _) => 1 | _ => 0 end.
Fixpoint outstanding (rs : list queue_res) : Z :=
  match rs with
  | [] => 0
  | r :: rest => enq_ok r - deq_ok r + outstanding rest
  end.

(** ** Text formatting ([sprintf] with the directives slave.c uses) *)

Definition digit_char (d : Z) : ascii :=
  nth (Z.to_nat d) (list_ascii_of_string "0123456789abcdef") "0"%char.

Fixpoint digits (fuel : nat) (base n : Z) (acc : list ascii) : list ascii :=
  match fuel with
  | O => acc
  | S fuel' =>
      let acc' := digit_char (n mod base) :: acc in
      if n / base =? 0 then acc' else digits fuel' base (n / base) acc'
  end.

(** A non-negative number in [base], zero-padded to [width] characters
    (the [0] flag with a minimum field width). *)
Definition render (base : Z) (width : nat) (n : Z) : string :=
  let ds := digits 32 base n [] in
  string_of_list_ascii (replicate (width - length ds)%nat "0"%char ++ ds).

Definition width_of (c : ascii) : nat := (nat_of_ascii c - 48)%nat.

(** The text [printf] produces for a format and its integer arguments:
    [%0wd], [%0wx], [%0wlx] and [%d]. *)
Fixpoint format (f : string) (args : list Z) : string :=
  match f with
  | EmptyString => EmptyString
  | String "%" (String "0" (String w (String "l" (String "x" rest)))) =>
      render 16 (width_of w) (hd 0 args) ++ format rest (tl args)
  | String "%" (String "0" (String w (String "x" rest))) =>
      render 16 (width_of w) (hd 0 args) ++ format rest (tl args)
  | String "%" (String "0" (String w (String "d" rest))) =>
      render 10 (width_of w) (hd 0 args) ++ format rest (tl args)
  | String "%" (String "d" rest) =>
      render 10 0 (hd 0 args) ++ format rest (tl args)
  | String c rest => String c (format rest args)
  end.

(** [sprintf(&rec.data[0], f, args...)]: the text and its terminator
    replace the first bytes of the buffer, the bytes behind them stay. *)
Definition sprintf (rec : MESSAGE) (f : string) (args : list Z) : MESSAGE :=
  let out := list_ascii_of_string (format f args) ++ [NUL] in
  {| data := out ++ drop (length out) (data rec) |}.

(** The C string in a buffer, as [printf("%s")] reads it. *)
Fixpoint c_string (bytes : list ascii) : string :=
  match bytes with
  | [] => EmptyString
  | c :: rest => if Ascii.eqb c NUL then EmptyString else String c (c_string rest)
  end.

(** A binary literal [0b...]. *)
Definition bin (s : string) : Z :=
  fold_left (fun acc c => 2 * acc + (if Ascii.eqb c "1" then 1 else 0))
    (list_ascii_of_string s) 0.

Definition to_u8 (x : Z) : Z := x mod 256.
Definition to_u16 (x : Z) : Z := x mod 65536.

Definition I2C_OFFSET_ADDRESS : Z := 0x20.
Definition PICO_PORT_ADDRESS : Z := 0x21.
Definition REG_STATUS : Z := 100.
Definition I2C_BAUDRATE : Z := 100000.
Definition I2C_SLAVE_ADDRESS_IO0 : Z := 26.
Definition I2C_SLAVE_ADDRESS_IO1 : Z := 27.
Definition I2C_SLAVE_SDA_PIN : Z := 20.
Definition I2C_SLAVE_SCL_PIN : Z := 21.

Definition GPIO_BOOT_MASK : Z := bin "00011100010011111111111111111111".
Definition PORT0_MASK : Z := 0xff.
Definition PORT1_MASK : Z := bin "111111110000000000".
Definition PORT1_OFFSET : Z := 10.
Definition GPIO_SET_DIR_MASK : Z := bin "0011110001111111111111111111111".
Definition GPIO_SLV1_DIR_MASK : Z := bin "00010000000000000000000000000000".
Definition GPIO_SLV1_OUT_MASK : Z := 0x00.
Definition GPIO_SLV2_DIR_MASK : Z := bin "0011110001111111111111111111111".
Definition GPIO_SLV2_OUT_MASK : Z := 0x00.
Definition GPIO_BANK0_MASK : Z := 0xff.
Definition GPIO_BANK1_MASK : Z := bin "00000000000000111111110000000000".

(** ** Status flags and handler context (slave.c lines 151-179) *)

Record status_t := {
  cfg : bool;
  cmd : bool;
  error : bool;
  watch : bool;
  sparesA : bool;
  sparesB : bool;
  sparesC : bool;
  sparesD : bool
}.

(** [status.all_flags]: the byte the bit-fields share, first field in the
    least significant bit (the allocation order of the firmware's ABI). *)
Definition all_flags (s : status_t) : Z :=
  Z.b2z (cfg s) + 2 * Z.b2z (cmd s) + 4 * Z.b2z (error s)
  + 8 * Z.b2z (watch s) + 16 * Z.b2z (sparesA s) + 32 * Z.b2z (sparesB s)
  + 64 * Z.b2z (sparesC s) + 128 * Z.b2z (sparesD s).

(** [status.all_flags = 0] *)
Definition status_clear : status_t :=
  {| cfg := false; cmd := false; error := false; watch := false;
     sparesA := false; sparesB := false; sparesC := false; sparesD := false |}.

Definition raise_cfg (s : status_t) : status_t :=
  {| cfg := true; cmd := cmd s; error := error s; watch := watch s;
     sparesA := sparesA s; sparesB := sparesB s; sparesC := sparesC s;
     sparesD := sparesD s |}.

Definition raise_cmd (s : status_t) : status_t :=
  {| cfg := cfg s; cmd := true; error := error s; watch := watch s;
     sparesA := sparesA s; sparesB := sparesB s; sparesC := sparesC s;
     sparesD := sparesD s |}.

Definition raise_watch (s : status_t) : status_t :=
  {| cfg := cfg s; cmd := cmd s; error := error s; watch := true;
     sparesA := sparesA s; sparesB := sparesB s; sparesC := sparesC s;
     sparesD := sparesD s |}.

Record context_t := {
  reg : list Z;
  reg_address : Z;
  reg_status : Z;
  reg_address_written : bool;
  i2c_add : Z
}.

Definition REG_COUNT : Z := 128.

Definition set_reg (c : context_t) (i v : Z) : context_t :=
  {| reg := array_set (reg c) i v; reg_address := reg_address c;
     reg_status := reg_status c;
     reg_address_written := reg_address_written c; i2c_add := i2c_add c |}.

Definition set_reg_address (c : context_t) (a : Z) : context_t :=
  {| reg := reg c; reg_address := a; reg_status := reg_status c;
     reg_address_written := reg_address_written c; i2c_add := i2c_add c |}.

Definition set_reg_address_written (c : context_t) (b : bool) : context_t :=
  {| reg := reg c; reg_address := reg_address c; reg_status := reg_status c;
     reg_address_written := b; i2c_add := i2c_add c |}.

Definition set_i2c_add (c : context_t) (a : Z) : context_t :=
  {| reg := reg c; reg_address := reg_address c; reg_status := reg_status c;
     reg_address_written := reg_address_written c; i2c_add := a |}.

(** ** Well-formed queues and the queue invariant *)

(** A slot holds [MESSAGE_SIZE] bytes. *)
Definition wf_MESSAGE (m : MESSAGE) : bool :=
  (length (data m) =? Z.to_nat MESSAGE_SIZE)%nat.

(** The array of the queue: [QUEUE_SIZE] slots of [MESSAGE_SIZE] bytes. *)
Definition wf_messages (ms : list MESSAGE) : bool :=
  (length ms =? Z.to_nat QUEUE_SIZE)%nat && forallb wf_MESSAGE ms.

Definition wf_op (op : queue_op) : bool :=
  match op with
  | Enque m => wf_MESSAGE m
  | Deque => true
  end.

(** The counters stay in range and [end] is [begin + current_load] modulo
    the size, [end] being wrapped only by the next [enque]. *)
Record queue_inv (q : queue_t) : Prop := {
  inv_load : 0 <= current_load q <= QUEUE_SIZE;
  inv_begin : 0 <= begin q < QUEUE_SIZE;
  inv_end : 0 <= end_ q <= QUEUE_SIZE;
  inv_wrap : (begin q + current_load q) mod QUEUE_SIZE = end_ q mod QUEUE_SIZE
}.

(** The array of the queue with every slot at its size, as a proposition. *)
Definition slots_ok (ms : list MESSAGE) : Prop :=
  length ms = Z.to_nat QUEUE_SIZE
  /\ Forall (fun m => length (data m) = Z.to_nat MESSAGE_SIZE) ms.

(** ** Queues used as examples *)

(** The queue in zero-initialised static storage. *)
Definition zero_queue : queue_t :=
  {| messages := replicate (Z.to_nat QUEUE_SIZE) zero_MESSAGE;
     begin := 0; end_ := 0; current_load := 0 |}.

(** A record holding a text, in a buffer that was zero before. *)
Definition text_MESSAGE (s : string) : MESSAGE := sprintf zero_MESSAGE s [].

(** A queue that was in use: every slot holds text, the counters are
    somewhere in the middle. *)
Definition used_queue : queue_t :=
  {| messages := replicate (Z.to_nat QUEUE_SIZE) (text_MESSAGE "Cmd 11, Set Gpio: 05 ");
     begin := 7; end_ := 9; current_load := 2 |}.

(** A queue holding [QUEUE_SIZE] records. *)
Definition full_queue : queue_t :=
  (queue_run (replicate (Z.to_nat QUEUE_SIZE) (Enque (text_MESSAGE "Cmd 60, Pad State: 1 ")))
     zero_queue).2.

(** ** The command identifiers *)

(** The case labels of the two switches of the handler. *)
Definition write_phase_command (a : Z) : bool :=
  match a with
  | 10 | 11 | 12 | 20 | 21 | 30 | 31 | 32 | 33 | 41 | 50 | 51 | 60 | 61
  | 80 | 81 | 90 | 91 => true
  | _ => false
  end.

Definition read_phase_command (a : Z) : bool :=
  match a with
  | 1 | 2 | 13 | 15 | 25 | 35 | 45 | 55 | 65 | 85 | 95 | 100 => true
  | _ => false
  end.

(** The read-phase commands that write their cell before it is sent: all
    of them on the port identity, all but the two port commands on the
    other identities. *)
Definition recomputes_on_read (identity a : Z) : bool :=
  read_phase_command a
  && negb (((a =? 85) || (a =? 95)) && negb (identity =? PICO_PORT_ADDRESS)).

(** ** The Pico SDK and userconfig.h

    The firmware calls the SDK for every hardware access. The class lists
    the calls slave.c makes, as functions on the state [hw] of the board:
    setters return the new state, getters read it. *)

Inductive gpio_drive_strength :=
| GPIO_DRIVE_STRENGTH_2MA
| GPIO_DRIVE_STRENGTH_4MA
| GPIO_DRIVE_STRENGTH_8MA
| GPIO_DRIVE_STRENGTH_12MA.

Definition drive_strength_value (d : gpio_drive_strength) : Z :=
  match d with
  | GPIO_DRIVE_STRENGTH_2MA => 0
  | GPIO_DRIVE_STRENGTH_4MA => 1
  | GPIO_DRIVE_STRENGTH_8MA => 2
  | GPIO_DRIVE_STRENGTH_12MA => 3
  end.

Inductive gpio_function := GPIO_FUNC_I2C | GPIO_FUNC_SIO.

Class PicoSDK (hw : Type) := {
  gpio_put : Z -> bool -> hw -> hw;
  gpio_put_masked : Z -> Z -> hw -> hw;
  gpio_set_dir : Z -> bool -> hw -> hw;
  gpio_set_dir_masked : Z -> Z -> hw -> hw;
  gpio_set_drive_strength : Z -> gpio_drive_strength -> hw -> hw;
  gpio_pull_up : Z -> hw -> hw;
  gpio_pull_down : Z -> hw -> hw;
  gpio_disable_pulls : Z -> hw -> hw;
  (** [hw_write_masked(&pads_bank0_hw->io[n], values, mask)] *)
  pads_write_masked : Z -> Z -> Z -> hw -> hw;
  (** [pads_bank0_hw->io[n]] *)
  pads_io : Z -> hw -> Z;
  gpio_get_all : hw -> Z;
  gpio_get : Z -> hw -> bool;
  gpio_get_dir : Z -> hw -> bool;
  gpio_get_drive_strength : Z -> hw -> gpio_drive_strength;
  gpio_is_pulled_up : Z -> hw -> bool;
  gpio_is_pulled_down : Z -> hw -> bool;
  gpio_init : Z -> hw -> hw;
  gpio_init_mask : Z -> hw -> hw;
  gpio_set_function : Z -> gpio_function -> hw -> hw;
  i2c_init : Z -> hw -> hw;
  stdio_init_all : hw -> hw;
  watchdog_caused_reboot : hw -> bool;
  watchdog_update : hw -> hw;
  sleep_ms : Z -> hw -> hw;
  PICO_DEFAULT_LED_PIN : Z
}.

(** The version numbers of userconfig.h. *)
Class UserConfig := {
  IO_SLAVE_VERSION_MAJOR : Z;
  IO_SLAVE_VERSION_MINOR : Z
}.

(** ** The device: the globals of slave.c and what is around them *)

Record device (hw : Type) := {
  queue : queue_t;
  status : status_t;
  context : context_t;
  (** the board behind the SDK *)
  board : hw;
  (** the address [i2c_slave_init] registered [i2c_slave_handler] at *)
  i2c0_slave : option Z;
  (** the bytes given to [i2c_write_byte], latest first *)
  i2c0_tx : list Z;
  (** the lines printed to stdout, latest first *)
  stdout : list string
}.

Arguments queue {hw} _.
Arguments status {hw} _.
Arguments context {hw} _.
Arguments board {hw} _.
Arguments i2c0_slave {hw} _.
Arguments i2c0_tx {hw} _.
Arguments stdout {hw} _.

(** The three events of the i2c_slave library; [I2C_SLAVE_RECEIVE] carries
    the byte [i2c_read_byte] returns in the handler. *)
Inductive i2c_slave_event_t :=
| I2C_SLAVE_RECEIVE (rx : Z)
| I2C_SLAVE_REQUEST
| I2C_SLAVE_FINISH.

Section Firmware.
Context {hw : Type} {SDK : PicoSDK hw} {Config : UserConfig}.

Definition with_queue (w : device hw) (q : queue_t) : device hw :=
  {| queue := q; status := status w; context := context w;
     board := board w; i2c0_slave := i2c0_slave w; i2c0_tx := i2c0_tx w;
     stdout := stdout w |}.

Definition with_status (w : device hw) (s : status_t) : device hw :=
  {| queue := queue w; status := s; context := context w;
     board := board w; i2c0_slave := i2c0_slave w; i2c0_tx := i2c0_tx w;
     stdout := stdout w |}.

Definition with_context (w : device hw) (c : context_t) : device hw :=
  {| queue := queue w; status := status w; context := c;
     board := board w; i2c0_slave := i2c0_slave w; i2c0_tx := i2c0_tx w;
     stdout := stdout w |}.

Definition with_board (w : device hw) (b : hw) : device hw :=
  {| queue := queue w; status := status w; context := context w;
     board := b; i2c0_slave := i2c0_slave w; i2c0_tx := i2c0_tx w;
     stdout := stdout w |}.

Definition with_i2c0_slave (w : device hw) (a : option Z) : device hw :=
  {| queue := queue w; status := status w; context := context w;
     board := board w; i2c0_slave := a; i2c0_tx := i2c0_tx w;
     stdout := stdout w |}.

Definition with_i2c0_tx (w : device hw) (tx : list Z) : device hw :=
  {| queue := queue w; status := status w; context := context w;
     board := board w; i2c0_slave := i2c0_slave w; i2c0_tx := tx;
     stdout := stdout w |}.

Definition with_stdout (w : device hw) (out : list string) : device hw :=
  {| queue := queue w; status := status w; context := context w;
     board := board w; i2c0_slave := i2c0_slave w; i2c0_tx := i2c0_tx w;
     stdout := out |}.

(** An SDK call that changes the board. *)
Definition sdk (f : hw -> hw) (w : device hw) : device hw :=
  with_board w (f (board w)).

(** [context.reg[context.reg_address]] *)
Definition cur (w : device hw) : Z :=
  array_get 0 (reg (context w)) (reg_address (context w)).

(** [context.reg[context.reg_address] = v] *)
Definition store (v : Z) (w : device hw) : device hw :=
  with_context w (set_reg (context w) (reg_address (context w)) (to_u8 v)).

(** [enque(&rec);] in the handler and in [main]: the result of [enque]
    is not looked at. *)
Definition log (rec : MESSAGE) (w : device hw) : device hw :=
  with_queue w (enque rec (queue w)).2.

(** [status.cmd = 1] *)
Definition raise_cmd_flag (w : device hw) : device hw :=
  with_status w (raise_cmd (status w)).

(** [context.i2c_add == PICO_PORT_ADDRESS] *)
Definition is_port_pico (w : device hw) : bool :=
  i2c_add (context w) =? PICO_PORT_ADDRESS.

(** [context.reg] has [REG_COUNT] cells; an access at another index is
    undefined behaviour, the handler's result is [None] there. *)
Definition in_reg (a : Z) : bool := (0 <=? a) && (a <? REG_COUNT).

(** The switch on the command byte after a data byte was stored
    (slave.c lines 217-370). *)
Definition write_command (rec : MESSAGE) (w : device hw) : device hw :=
  let cmd := reg_address (context w) in
  match cmd with
  | 10 =>
      let w := sdk (gpio_put (cur w) false) w in
      log (sprintf rec "Cmd %02d, Clear Gpio: %02d " [cmd; cur w]) w
  | 11 =>
      let w := sdk (gpio_put (cur w) true) w in
      log (sprintf rec "Cmd %02d, Set Gpio: %02d " [cmd; cur w]) w
  | 12 =>
      let w :=
        if cur w <? 10 then sdk (gpio_put_masked GPIO_BANK0_MASK 0x00) w
        else sdk (gpio_put_masked GPIO_BANK1_MASK 0x00) w in
      log (sprintf rec "Cmd %02d, Clear Bank Gpio: %02d " [cmd; cur w]) w
  | 20 =>
      let w := sdk (gpio_set_dir (cur w) true) w in
      log (sprintf rec "Cmd %02d, Set Dir Out Gpio: %02d " [cmd; cur w]) w
  | 21 =>
      let w := sdk (gpio_set_dir (cur w) false) w in
      log (sprintf rec "Cmd %02d, Set dir In Gpio: %02d " [cmd; cur w]) w
  | 30 =>
      let w :=
        sdk (gpio_set_drive_strength (cur w) GPIO_DRIVE_STRENGTH_2MA) w in
      log (sprintf rec "Cmd %02d, 2mA Gpio: %02d " [cmd; cur w]) w
  | 31 =>
      let w :=
        sdk (gpio_set_drive_strength (cur w) GPIO_DRIVE_STRENGTH_4MA) w in
      log (sprintf rec "Cmd %02d, 4mA Gpio: %02d " [cmd; cur w]) w
  | 32 =>
      let w :=
        sdk (gpio_set_drive_strength (cur w) GPIO_DRIVE_STRENGTH_8MA) w in
      log (sprintf rec "Cmd %02d, 8mA Gpio: %02d " [cmd; cur w]) w
  | 33 =>
      let w :=
        sdk (gpio_set_drive_strength (cur w) GPIO_DRIVE_STRENGTH_12MA) w in
      log (sprintf rec "Cmd %02d, 12mA Gpio: %02d " [cmd; cur w]) w
  | 41 =>
      let w := sdk (gpio_pull_up (cur w)) w in
      log (sprintf rec "Cmd %02d, Pull-up Gpio: %02d,  " [cmd; cur w]) w
  | 50 =>
      let w := sdk (gpio_disable_pulls (cur w)) w in
      log (sprintf rec "Cmd %02d, Clear pull-up, pull-down Gpio: %02d,  "
             [cmd; cur w]) w
  | 51 =>
      let w := sdk (gpio_pull_down (cur w)) w in
      log (sprintf rec "Cmd %02d, Pull-down Gpio: %02d,  " [cmd; cur w]) w
  | 60 =>
      log (sprintf rec "Cmd %02d, Pad State: %01d " [cmd; cur w]) w
  | 61 =>
      let maskvalue := 0xff in
      let w :=
        sdk (pads_write_masked (cur w)
               (array_get 0 (reg (context w)) (cmd - 1)) maskvalue) w in
      log (sprintf rec
             "Cmd %02d, Set Pad State to Gpio: %02d ,State: 0x%01x "
             [cmd; cur w; array_get 0 (reg (context w)) (cmd - 1)]) w
  | 80 =>
      let r :=
        if is_port_pico w then
          let maskvalue := cur w in
          let w := sdk (gpio_set_dir_masked PORT0_MASK maskvalue) w in
          (sprintf rec "Cmd %02d, Port0, dir: 0x%02lx,  " [cmd; maskvalue],
           w)
        else
          (sprintf rec "Cmd %02d, Not Valid for I2C Pico: 0x%02x,  "
             [cmd; i2c_add (context w)],
           raise_cmd_flag w) in
      log r.1 r.2
  | 81 =>
      let r :=
        if is_port_pico w then
          let maskvalue := cur w in
          let w := sdk (gpio_put_masked PORT0_MASK maskvalue) w in
          (sprintf rec "Cmd %02d, Port0, 8 bit Out: 0x%02x,  "
             [cmd; cur w],
           w)
        else
          (sprintf rec "Cmd %02d, Not Valid for I2C Pico: 0x%02x,  "
             [cmd; i2c_add (context w)],
           raise_cmd_flag w) in
      log r.1 r.2
  | 90 =>
      let r :=
        if is_port_pico w then
          let maskvalue := Z.shiftl (cur w) PORT1_OFFSET in
          let w := sdk (gpio_set_dir_masked PORT1_MASK maskvalue) w in
          (sprintf rec "Cmd %02d, Port1, dir: 0x%02lx,  " [cmd; maskvalue],
           w)
        else
          (sprintf rec "Cmd %02d, Not Valid for I2C Pico: 0x%02x,  "
             [cmd; i2c_add (context w)],
           raise_cmd_flag w) in
      log r.1 r.2
  | 91 =>
      let r :=
        if is_port_pico w then
          let maskvalue := Z.shiftl (cur w) PORT1_OFFSET in
          let w := sdk (gpio_put_masked PORT1_MASK maskvalue) w in
          (sprintf rec "Cmd %02d, Port1, 8 bit Out: 0x%02x,  "
             [cmd; cur w],
           w)
        else
          (sprintf rec "Cmd %02d, Not Valid for I2C Pico: 0x%02x,  "
             [cmd; i2c_add (context w)],
           w) in
      log r.1 r.2
  | _ => w
  end.

(** The switch on the command byte when the master requests a byte
    (slave.c lines 381-491), with the buffer [rec] afterwards. *)
Definition read_command (rec : MESSAGE) (w : device hw)
  : MESSAGE * device hw :=
  let cmd := reg_address (context w) in
  match cmd with
  | 1 =>
      let w := store IO_SLAVE_VERSION_MAJOR w in
      let rec := sprintf rec "Cmd %02d, MAJ Version: %02d " [cmd; cur w] in
      (rec, log rec w)
  | 2 =>
      let w := store IO_SLAVE_VERSION_MINOR w in
      let rec := sprintf rec "Cmd %02d, MIN Version: %02d " [cmd; cur w] in
      (rec, log rec w)
  | 13 =>
      let lvalue := gpio_get_all (board w) in
      let svalue :=
        if cur w <? 10 then to_u8 lvalue
        else to_u8 (Z.shiftr lvalue 10) in
      let rec :=
        sprintf rec "Cmd %02d, Bank: %02d, read: 0x%01x "
          [cmd; cur w; svalue] in
      let w := log rec w in
      (rec, store svalue w)
  | 15 =>
      let tvalue := gpio_get (cur w) (board w) in
      let rec :=
        sprintf rec "Cmd %02d, read True Gpio: %02d ,State: %01d "
          [cmd; cur w; Z.b2z tvalue] in
      let w := log rec w in
      (rec, store (Z.b2z tvalue) w)
  | 25 =>
      let tvalue := gpio_get_dir (cur w) (board w) in
      let rec :=
        sprintf rec "Cmd %02d, Red Dir Gpio: %02d ,State: %01d "
          [cmd; cur w; Z.b2z tvalue] in
      let w := log rec w in
      (rec, store (Z.b2z tvalue) w)
  | 35 =>
      let svalue :=
        to_u8 (drive_strength_value
                 (gpio_get_drive_strength (cur w) (board w))) in
      let rec :=
        sprintf rec "Cmd %02d, Read strenght Gpio: %02d ,State: %01d "
          [cmd; cur w; svalue] in
      let w := log rec w in
      (rec, store svalue w)
  | 45 =>
      let tvalue := gpio_is_pulled_up (cur w) (board w) in
      let rec :=
        sprintf rec "Cmd %02d, read pull-up Gpio: %02d ,State: %01d "
          [cmd; cur w; Z.b2z tvalue] in
      let w := log rec w in
      (rec, store (Z.b2z tvalue) w)
  | 55 =>
      let tvalue := gpio_is_pulled_down (cur w) (board w) in
      let rec :=
        sprintf rec "Cmd %02d, Read pull-down Gpio: %02d ,State: %01d "
          [cmd; cur w; Z.b2z tvalue] in
      let w := log rec w in
      (rec, store (Z.b2z tvalue) w)
  | 65 =>
      let svalue := to_u8 (Z.land (pads_io (cur w) (board w)) 0xff) in
      let rec :=
        sprintf rec "Cmd %02d, Gpio: %02d ,Read PAD State: 0x%01x "
          [cmd; cur w; svalue] in
      let w := log rec w in
      (rec, store svalue w)
  | 85 =>
      let r :=
        if is_port_pico w then
          let lvalue := gpio_get_all (board w) in
          let svalue := to_u8 lvalue in
          (sprintf rec "Cmd %02d,Read Port0 8 bit In: 0x%01x "
             [cmd; svalue],
           store svalue w)
        else
          (sprintf rec "Cmd %02d, Not Valid for I2C Pico: 0x%02x,  "
             [cmd; i2c_add (context w)],
           raise_cmd_flag w) in
      (r.1, log r.1 r.2)
  | 95 =>
      let r :=
        if is_port_pico w then
          let lvalue := gpio_get_all (board w) in
          let svalue := to_u8 (Z.shiftr lvalue PORT1_OFFSET) in
          (sprintf rec "Cmd %02d, Read Port1 8 bit In: 0x%01x "
             [cmd; svalue],
           store svalue w)
        else
          (sprintf rec "Cmd %02d, Not Valid for I2C Pico: 0x%02x,  "
             [cmd; i2c_add (context w)],
           raise_cmd_flag w) in
      (r.1, log r.1 r.2)
  | 100 =>
      let w :=
        with_context w
          (set_reg (context w) REG_STATUS (to_u8 (all_flags (status w)))) in
      let rec :=
        sprintf rec "Cmd %02d,Status register: 0x%01x "
          [cmd; array_get 0 (reg (context w)) REG_STATUS] in
      (rec, log rec w)
  | _ => (rec, w)
  end.

(** [i2c_write_byte(i2c, b)] *)
Definition i2c_write_byte (b : Z) (w : device hw) : device hw :=
  with_i2c0_tx w (b :: i2c0_tx w).

(** The handler the I2C interrupt calls (slave.c lines 188-507). [rec] is
    what the uninitialised local buffer holds on entry. *)
Definition i2c_slave_handler (rec : MESSAGE) (event : i2c_slave_event_t)
    (w : device hw) : option (device hw) :=
  match event with
  | I2C_SLAVE_RECEIVE rx =>
      if negb (reg_address_written (context w)) then
        Some (with_context w
                (set_reg_address_written
                   (set_reg_address (context w) (to_u8 rx)) true))
      else if in_reg (reg_address (context w)) then
        Some (write_command rec (store rx w))
      else None
  | I2C_SLAVE_REQUEST =>
      if in_reg (reg_address (context w)) then
        let cmd := reg_address (context w) in
        let r := read_command rec w in
        let w := i2c_write_byte (cur r.2) r.2 in
        Some (log (sprintf r.1 "Read Cmd : %02d , Value: %02d "
                     [cmd; cur w]) w)
      else None
  | I2C_SLAVE_FINISH =>
      Some (with_context w (set_reg_address_written (context w) false))
  end.

(** What reaches the device: a call of the handler by the I2C interrupt
    (with the content of its local buffer on entry), or the board
    changing under it (inputs move, the main loop blinks the LED). *)
Inductive occurrence :=
| Irq (rec : MESSAGE) (event : i2c_slave_event_t)
| Env (b : hw).

Definition occur (o : occurrence) (w : device hw) : option (device hw) :=
  match o with
  | Irq rec event => i2c_slave_handler rec event w
  | Env b => Some (with_board w b)
  end.

Fixpoint run (os : list occurrence) (w : device hw) : option (device hw) :=
  match os with
  | [] => Some w
  | o :: rest =>
      match occur o w with
      | Some w' => run rest w'
      | None => None
      end
  end.

(** *** Boot (slave.c lines 515-553 and 619-677) *)

Definition read_i2c_address (b : hw) : Z * hw :=
  let b := gpio_set_function I2C_SLAVE_ADDRESS_IO0 GPIO_FUNC_SIO b in
  let b := gpio_set_dir I2C_SLAVE_ADDRESS_IO0 false b in
  let b := gpio_pull_up I2C_SLAVE_ADDRESS_IO0 b in
  let b := gpio_set_function I2C_SLAVE_ADDRESS_IO1 GPIO_FUNC_SIO b in
  let b := gpio_set_dir I2C_SLAVE_ADDRESS_IO1 false b in
  let b := gpio_pull_up I2C_SLAVE_ADDRESS_IO1 b in
  let io0 := Z.b2z (gpio_get I2C_SLAVE_ADDRESS_IO0 b) in
  let io1 := Z.b2z (gpio_get I2C_SLAVE_ADDRESS_IO1 b) in
  (to_u8 (I2C_OFFSET_ADDRESS + Z.shiftl io1 1 + io0), b).

Definition setup_slave (i2c_add : Z) (w : device hw) : device hw :=
  let w := sdk (gpio_init I2C_SLAVE_SDA_PIN) w in
  let w := sdk (gpio_set_function I2C_SLAVE_SDA_PIN GPIO_FUNC_I2C) w in
  let w := sdk (gpio_pull_up I2C_SLAVE_SDA_PIN) w in
  let w := sdk (gpio_init I2C_SLAVE_SCL_PIN) w in
  let w := sdk (gpio_set_function I2C_SLAVE_SCL_PIN GPIO_FUNC_I2C) w in
  let w := sdk (gpio_pull_up I2C_SLAVE_SCL_PIN) w in
  let w := sdk (i2c_init I2C_BAUDRATE) w in
  with_i2c0_slave w (Some i2c_add).

(** The globals of slave.c when [main] starts: static storage is
    zero-initialised. *)
Definition power_on (b : hw) : device hw :=
  {| queue := zero_queue;
     status := status_clear;
     context :=
       {| reg := replicate (Z.to_nat REG_COUNT) 0; reg_address := 0;
          reg_status := 0; reg_address_written := false; i2c_add := 0 |};
     board := b; i2c0_slave := None; i2c0_tx := []; stdout := [] |}.

(** [fprintf(stdout, ...)], one line per element, the newline left out. *)
Definition print (line : string) (w : device hw) : device hw :=
  with_stdout w (line :: stdout w).

(** The locals of [main] and the device. *)
Record main_state := {
  ctr : Z;
  mess : Z;
  pulse : Z;
  dev : device hw
}.

(** The switch on [context.i2c_add] in [main] (lines 645-665), with the
    buffer [rec] afterwards. *)
Definition configure (rec : MESSAGE) (w : device hw)
  : MESSAGE * device hw :=
  let a := i2c_add (context w) in
  match a with
  | 0x21 =>
      let w := sdk (gpio_set_dir_masked GPIO_SET_DIR_MASK GPIO_SLV1_DIR_MASK) w in
      let w := sdk (gpio_put_masked GPIO_SET_DIR_MASK GPIO_SLV1_OUT_MASK) w in
      (sprintf rec "Config for I2C address 0x%02x completed" [a], w)
  | 0x22 | 0x23 =>
      let w := sdk (gpio_set_dir_masked GPIO_SET_DIR_MASK GPIO_SLV2_DIR_MASK) w in
      let w := sdk (gpio_put_masked GPIO_SET_DIR_MASK GPIO_SLV2_OUT_MASK) w in
      (sprintf rec "Config for I2C address 0x%02x completed" [a], w)
  | _ =>
      (sprintf rec
         "I2C address not supported for device at address  0x%02x" [a],
       with_status w (raise_cfg (status w)))
  end.

(** [main] from its first line to the first [enque] (lines 625-643):
    the buffer [rec], [pulse] and the device afterwards. *)
Definition boot_start (rec : MESSAGE) (w : device hw)
  : MESSAGE * Z * device hw :=
  let w := with_status w status_clear in
  let pulse := 200 in
  let r :=
    if watchdog_caused_reboot (board w)
    then (with_status w (raise_watch (status w)), 50)
    else (w, pulse) in
  let w := r.1 in
  let pulse := r.2 in
  let w := sdk (gpio_init_mask GPIO_BOOT_MASK) w in
  let w := with_queue w (init_queue (queue w)) in
  let w := sdk stdio_init_all w in
  let w :=
    print (format "Slave Version: %d.%d"
             [IO_SLAVE_VERSION_MAJOR; IO_SLAVE_VERSION_MINOR]) w in
  let a := read_i2c_address (board w) in
  let w := with_board w a.2 in
  let w := with_context w (set_i2c_add (context w) a.1) in
  let rec :=
    sprintf rec "Pico Slave boot for I2C address 0x%02x"
      [i2c_add (context w)] in
  let w := log rec w in
  (rec, pulse, w).

(** [main] up to its loop: [boot_start], the switch on the address, and
    lines 666-677. *)
Definition main_boot (rec : MESSAGE) (w : device hw) : main_state :=
  let r := boot_start rec w in
  let rec := r.1.1 in
  let pulse := r.1.2 in
  let w := r.2 in
  let c := configure rec w in
  let w := log c.1 c.2 in
  let w := setup_slave (i2c_add (context w)) w in
  let w := sdk (gpio_init PICO_DEFAULT_LED_PIN) w in
  let w := sdk (gpio_set_dir PICO_DEFAULT_LED_PIN true) w in
  let w := sdk (gpio_put PICO_DEFAULT_LED_PIN true) w in
  {| ctr := 0; mess := 0; pulse := pulse; dev := w |}.

(** The line the main loop prints for a dequeued record:
    [printf("Pico %02x: %s\n", context.i2c_add, &rec.data[0])]. *)
Definition console_line (i2c_add : Z) (rec : MESSAGE) : string :=
  format "Pico %02x: " [i2c_add] ++ c_string (data rec).

(** [while (deque(&rec)) { ... }]: [None] when the fuel runs out before
    the queue is empty. *)
Fixpoint drain (fuel : nat) (w : device hw) : option (device hw) :=
  match deque (queue w) with
  | (None, _) => Some w
  | (Some rec, q) =>
      match fuel with
      | O => None
      | S fuel' =>
          let w := with_queue w q in
          let w := sdk (gpio_put PICO_DEFAULT_LED_PIN false) w in
          let w := print (console_line (i2c_add (context w)) rec) w in
          let w := sdk (sleep_ms 50) w in
          let w := sdk (gpio_put PICO_DEFAULT_LED_PIN true) w in
          drain fuel' w
      end
  end.

(** One turn of the [while (1)] loop of [main]. *)
Definition main_loop (s : main_state) : option main_state :=
  let w := dev s in
  let w := sdk watchdog_update w in
  let w := sdk (sleep_ms 10) w in
  let ctr := to_u16 (ctr s + 1) in
  let mess := mess s + 1 in
  let r :=
    if pulse s <? ctr then
      let w := sdk (gpio_put PICO_DEFAULT_LED_PIN false) w in
      let w := sdk (sleep_ms 200) w in
      let w := sdk (gpio_put PICO_DEFAULT_LED_PIN true) w in
      (w, 0)
    else (w, ctr) in
  let w := r.1 in
  let ctr := r.2 in
  let r :=
    if 1500 <? mess then
      (print (format "Heartbeat I2C Slave add: 0x%02x  version: %d.%d"
                [i2c_add (context w); IO_SLAVE_VERSION_MAJOR;
                 IO_SLAVE_VERSION_MINOR]) w,
       0)
    else (w, mess) in
  let w := r.1 in
  let mess := r.2 in
  match drain (Z.to_nat QUEUE_SIZE) w with
  | Some w => Some {| ctr := ctr; mess := mess; pulse := pulse s; dev := w |}
  | None => None
  end.

(** [main] through [n] turns of its loop. *)
Fixpoint main_loops (n : nat) (s : main_state) : option main_state :=
  match n with
  | O => Some s
  | S n' =>
      match main_loop s with
      | Some s' => main_loops n' s'
      | None => None
      end
  end.

Definition main (n : nat) (rec : MESSAGE) (b : hw) : option main_state :=
  main_loops n (main_boot rec (power_on b)).


(** A write transaction: the address byte, one data byte, then stop. *)
Definition write_transaction (rec1 rec2 rec3 : MESSAGE) (a v : Z)
  : list occurrence :=
  [Irq rec1 (I2C_SLAVE_RECEIVE a); Irq rec2 (I2C_SLAVE_RECEIVE v);
   Irq rec3 I2C_SLAVE_FINISH].

(** A read transaction: the address byte, a repeated start (which the
    library reports as a finish) or none, then the request. *)
Definition read_transaction (rec1 rec2 rec3 : MESSAGE) (a : Z)
    (restart : bool) : list occurrence :=
  [Irq rec1 (I2C_SLAVE_RECEIVE a)]
  ++ (if restart then [Irq rec2 I2C_SLAVE_FINISH] else [])
  ++ [Irq rec3 I2C_SLAVE_REQUEST].

(** The rejection text of the port commands. *)
Definition not_valid (rec : MESSAGE) (w : device hw) : MESSAGE :=
  sprintf rec "Cmd %02d, Not Valid for I2C Pico: 0x%02x,  "
    [reg_address (context w); i2c_add (context w)].

(** The board after the SDK calls of [main] before its loop, those in
    the switch on the address left out. *)
Definition boot_board (b : hw) : hw :=
  let b := gpio_init_mask GPIO_BOOT_MASK b in
  let b := stdio_init_all b in
  let b := (read_i2c_address b).2 in
  let b := gpio_init I2C_SLAVE_SDA_PIN b in
  let b := gpio_set_function I2C_SLAVE_SDA_PIN GPIO_FUNC_I2C b in
  let b := gpio_pull_up I2C_SLAVE_SDA_PIN b in
  let b := gpio_init I2C_SLAVE_SCL_PIN b in
  let b := gpio_set_function I2C_SLAVE_SCL_PIN GPIO_FUNC_I2C b in
  let b := gpio_pull_up I2C_SLAVE_SCL_PIN b in
  let b := i2c_init I2C_BAUDRATE b in
  let b := gpio_init PICO_DEFAULT_LED_PIN b in
  let b := gpio_set_dir PICO_DEFAULT_LED_PIN true b in
  gpio_put PICO_DEFAULT_LED_PIN true b.


End Firmware.

Arguments occurrence : clear implicits.
Arguments main_state : clear implicits.

(** ** The event queue of the design document (section 4.1), in its words

    A bounded first-in first-out list: [enqueue] fails when the buffer is
    at capacity, [dequeue] returns none when it is empty, records leave in
    the order they arrived. *)
Module Fifo.

Definition capacity : nat := 64.

Definition enqueue (record : MESSAGE) (l : list MESSAGE)
  : bool * list MESSAGE :=
  if (length l <? capacity)%nat then (true, l ++ [record]) else (false, l).

Definition dequeue (l : list MESSAGE) : option MESSAGE * list MESSAGE :=
  match l with
  | [] => (None, [])
  | oldest :: rest => (Some oldest, rest)
  end.

Definition step (op : queue_op) (l : list MESSAGE)
  : queue_res * list MESSAGE :=
  match op with
  | Enque m => let r := enqueue m l in (Enqued r.1, r.2)
  | Deque => let r := dequeue l in (Dequed r.1, r.2)
  end.

Fixpoint run (ops : list queue_op) (l : list MESSAGE)
  : list queue_res * list MESSAGE :=
  match ops with
  | [] => ([], l)
  | op :: rest =>
      let r := step op l in
      let rs := run rest r.2 in
      (r.1 :: rs.1, rs.2)
  end.

End Fifo.

(** ** A reference board

    The SIO output, output-enable and input words and the pad control
    words of an RP2040, enough to run the firmware on concrete inputs.
    Function select, the I2C block, the timer and the watchdog counter are
    not kept. The general theorems hold for every implementation of
    [PicoSDK]; this one is used where a concrete device is needed. *)
Module Rp2040.

Record t := {
  gpio_out : Z;
  gpio_oe : Z;
  gpio_in : Z;
  pads : list Z;
  watchdog_reboot : bool
}.

Definition with_out (b : t) (v : Z) : t :=
  {| gpio_out := v; gpio_oe := gpio_oe b; gpio_in := gpio_in b;
     pads := pads b; watchdog_reboot := watchdog_reboot b |}.

Definition with_oe (b : t) (v : Z) : t :=
  {| gpio_out := gpio_out b; gpio_oe := v; gpio_in := gpio_in b;
     pads := pads b; watchdog_reboot := watchdog_reboot b |}.

Definition with_pads (b : t) (p : list Z) : t :=
  {| gpio_out := gpio_out b; gpio_oe := gpio_oe b; gpio_in := gpio_in b;
     pads := p; watchdog_reboot := watchdog_reboot b |}.

Definition word (x : Z) : Z := Z.land x 0xffffffff.

Definition put_bit (x g : Z) (v : bool) : Z :=
  word (if v then Z.setbit x g else Z.clearbit x g).

(** The masked update of [hw_write_masked]: [reg ^= (reg ^ values) & mask]. *)
Definition write_masked (x values mask : Z) : Z :=
  word (Z.lxor x (Z.land (Z.lxor x values) mask)).

Definition pad_masked (g values mask : Z) (b : t) : t :=
  with_pads b
    (array_set (pads b) g (write_masked (array_get 0 (pads b) g) values mask)).

Definition strength_of (v : Z) : gpio_drive_strength :=
  match v with
  | 0 => GPIO_DRIVE_STRENGTH_2MA
  | 1 => GPIO_DRIVE_STRENGTH_4MA
  | 2 => GPIO_DRIVE_STRENGTH_8MA
  | _ => GPIO_DRIVE_STRENGTH_12MA
  end.

(** [gpio_set_function]: input enabled, output disable cleared in the pad
    word; the function select itself is not kept. *)
Definition set_function (g : Z) (b : t) : t := pad_masked g 0x40 0xc0 b.

(** [gpio_init]: an input driving 0, under software control. *)
Definition init_pin (g : Z) (b : t) : t :=
  let b := with_oe b (put_bit (gpio_oe b) g false) in
  let b := with_out b (put_bit (gpio_out b) g false) in
  set_function g b.

(** [gpio_init_mask]: [gpio_init] for every pin of the mask. *)
Definition init_pins (mask : Z) (b : t) : t :=
  fold_left
    (fun b g => if Z.testbit mask (Z.of_nat g) then init_pin (Z.of_nat g) b else b)
    (seq 0 30) b.

Definition sdk : PicoSDK t :=
  {| gpio_put g v b := with_out b (put_bit (gpio_out b) g v);
     gpio_put_masked mask v b :=
       with_out b (write_masked (gpio_out b) v mask);
     gpio_set_dir g v b := with_oe b (put_bit (gpio_oe b) g v);
     gpio_set_dir_masked mask v b :=
       with_oe b (write_masked (gpio_oe b) v mask);
     gpio_set_drive_strength g d :=
       pad_masked g (Z.shiftl (drive_strength_value d) 4) 0x30;
     gpio_pull_up g := pad_masked g 0x08 0x0c;
     gpio_pull_down g := pad_masked g 0x04 0x0c;
     gpio_disable_pulls g := pad_masked g 0x00 0x0c;
     pads_write_masked := pad_masked;
     pads_io g b := array_get 0 (pads b) g;
     gpio_get_all := gpio_in;
     gpio_get g b := Z.testbit (gpio_in b) g;
     gpio_get_dir g b := Z.testbit (gpio_oe b) g;
     gpio_get_drive_strength g b :=
       strength_of (Z.shiftr (Z.land (array_get 0 (pads b) g) 0x30) 4);
     gpio_is_pulled_up g b := Z.testbit (array_get 0 (pads b) g) 3;
     gpio_is_pulled_down g b := Z.testbit (array_get 0 (pads b) g) 2;
     gpio_init := init_pin;
     gpio_init_mask := init_pins;
     gpio_set_function g _ := set_function g;
     i2c_init _ b := b;
     stdio_init_all b := b;
     watchdog_caused_reboot := watchdog_reboot;
     watchdog_update b := b;
     sleep_ms _ b := b;
     PICO_DEFAULT_LED_PIN := 25 |}.

(** A board after reset with the two address straps read as [io1 io0]. *)
Definition strapped (io1 io0 : bool) : t :=
  {| gpio_out := 0; gpio_oe := 0;
     gpio_in :=
       Z.shiftl (Z.b2z io1) I2C_SLAVE_ADDRESS_IO1
       + Z.shiftl (Z.b2z io0) I2C_SLAVE_ADDRESS_IO0;
     pads := replicate 30 0x56;
     watchdog_reboot := false |}.

Definition config : UserConfig :=
  {| IO_SLAVE_VERSION_MAJOR := 1; IO_SLAVE_VERSION_MINOR := 0 |}.

End Rp2040.

#[local] Existing Instance Rp2040.sdk.
#[local] Existing Instance Rp2040.config.

(** The device after boot on the reference board with the given straps,
    and after the first turn of the main loop has emptied the queue. *)
Definition booted (io1 io0 : bool) : device Rp2040.t :=
  match main 1 zero_MESSAGE (Rp2040.strapped io1 io0) with
  | Some s => dev s
  | None => power_on (Rp2040.strapped io1 io0)
  end.

(** The device in the middle of a write transaction to address [a]. *)
Definition addressed (io1 io0 : bool) (a : Z) : device Rp2040.t :=
  match run [Irq zero_MESSAGE (I2C_SLAVE_RECEIVE a)] (booted io1 io0) with
  | Some w => w
  | None => booted io1 io0
  end.

(** ** Well-formed devices *)

(** A value a [uint8_t] holds. *)
Definition byte (x : Z) : Prop := 0 <= x < 256.

(** [context] as its C type has it: 128 cells of one byte each, and one
    byte for the selected address and for the identity. *)
Definition context_ok (c : context_t) : Prop :=
  length (reg c) = Z.to_nat REG_COUNT
  /\ Forall byte (reg c)
  /\ byte (reg_address c)
  /\ byte (i2c_add c).

(** A text without the terminator in it. *)
Definition no_NUL (s : string) : bool :=
  forallb (fun c => negb (Ascii.eqb c NUL)) (list_ascii_of_string s).

(** The bound of a handler call on the records it queues. *)
Definition records_of (event : i2c_slave_event_t) : nat :=
  match event with
  | I2C_SLAVE_RECEIVE _ => 1
  | I2C_SLAVE_REQUEST => 2
  | I2C_SLAVE_FINISH => 0
  end.

(** [q'] holds the records of [q] in the same order, then at most [n]
    more, and is a queue in range of the full size. *)
Definition queue_grows (n : nat) (q q' : queue_t) : Prop :=
  (exists new, contents q' = contents q ++ new /\ (length new <= n)%nat)
  /\ queue_inv q'
  /\ length (messages q') = Z.to_nat QUEUE_SIZE.

Section Boards.
Context {hw : Type} {SDK : PicoSDK hw}.

(** The board after the SDK calls of [main] before its loop, when the
    switch on the address made its two calls with the masks [dir] and
    [out]. *)
Definition configured_board (dir out : Z) (b : hw) : hw :=
  let b := gpio_init_mask GPIO_BOOT_MASK b in
  let b := stdio_init_all b in
  let b := (read_i2c_address b).2 in
  let b := gpio_set_dir_masked GPIO_SET_DIR_MASK dir b in
  let b := gpio_put_masked GPIO_SET_DIR_MASK out b in
  let b := gpio_init I2C_SLAVE_SDA_PIN b in
  let b := gpio_set_function I2C_SLAVE_SDA_PIN GPIO_FUNC_I2C b in
  let b := gpio_pull_up I2C_SLAVE_SDA_PIN b in
  let b := gpio_init I2C_SLAVE_SCL_PIN b in
  let b := gpio_set_function I2C_SLAVE_SCL_PIN GPIO_FUNC_I2C b in
  let b := gpio_pull_up I2C_SLAVE_SCL_PIN b in
  let b := i2c_init I2C_BAUDRATE b in
  let b := gpio_init PICO_DEFAULT_LED_PIN b in
  let b := gpio_set_dir PICO_DEFAULT_LED_PIN true b in
  gpio_put PICO_DEFAULT_LED_PIN true b.

(** The read-phase commands that answer with a property of the pin, bank
    or pad the cell selects. *)
Definition hardware_getter (a : Z) : bool :=
  match a with
  | 13 | 15 | 25 | 35 | 45 | 55 | 65 => true
  | _ => false
  end.

(** What such a command computes from the selector [v] in its cell and
    the board (the right-hand sides of the assignments to [svalue] and
    [tvalue] in cases 13 to 65 of the request switch). *)
Definition getter_value (a v : Z) (b : hw) : Z :=
  match a with
  | 13 =>
      if v <? 10 then to_u8 (gpio_get_all b)
      else to_u8 (Z.shiftr (gpio_get_all b) 10)
  | 15 => Z.b2z (gpio_get v b)
  | 25 => Z.b2z (gpio_get_dir v b)
  | 35 => to_u8 (drive_strength_value (gpio_get_drive_strength v b))
  | 45 => Z.b2z (gpio_is_pulled_up v b)
  | 55 => Z.b2z (gpio_is_pulled_down v b)
  | 65 => to_u8 (Z.land (pads_io v b) 0xff)
  | _ => v
  end.

(** The SDK call of a port-wide write command accepted on the port Pico
    (cases 80, 81, 90 and 91 of the receive switch). *)
Definition port_action (a v : Z) (b : hw) : hw :=
  match a with
  | 80 => gpio_set_dir_masked PORT0_MASK v b
  | 81 => gpio_put_masked PORT0_MASK v b
  | 90 => gpio_set_dir_masked PORT1_MASK (Z.shiftl v PORT1_OFFSET) b
  | 91 => gpio_put_masked PORT1_MASK (Z.shiftl v PORT1_OFFSET) b
  | _ => b
  end.

(** A call of the handler with a buffer of the size of [MESSAGE]; a change
    of the board is always well-formed. *)
Definition wf_occurrence (o : occurrence hw) : bool :=
  match o with
  | Irq rec _ => wf_MESSAGE rec
  | Env _ => true
  end.

End Boards.

(** * Properties *)

(** [lia] with division and remainder by constants. *)
Ltac Zify.zify_post_hook ::= Z.to_euclidean_division_equations.

(** Split a conjunction into its parts, leaving records alone. *)
Ltac conjs := repeat match goal with |- _ /\ _ => split end.

(** Case analysis on the command byte of a switch: destruct whatever a
    [match] of the goal looks at, until no [match] is left. *)
Ltac split_switch :=
  repeat match goal with
         | |- context [match ?x with _ => _ end] => destruct x
         end.

(** ** Arrays *)

Lemma array_set_length {A} (a : list A) i x :
  length (array_set a i x) = length a.
Proof. unfold array_set. destruct (i <? 0); [done | apply length_insert]. Qed.

Lemma array_get_set_eq {A} (d : A) (a : list A) i x :
  0 <= i < Z.of_nat (length a) -> array_get d (array_set a i x) i = x.
Proof.
  intros Hi. unfold array_get, array_set.
  destruct (Z.ltb_spec i 0) as [|_]; [lia |].
  rewrite list_lookup_insert_eq; [done | lia].
Qed.

Lemma array_get_set_ne {A} (d : A) (a : list A) i j x :
  i <> j -> array_get d (array_set a i x) j = array_get d a j.
Proof.
  intros Hne. unfold array_get, array_set.
  destruct (Z.ltb_spec j 0) as [|Hj]; [done |].
  destruct (Z.ltb_spec i 0) as [|Hi]; [done |].
  rewrite list_lookup_insert_ne; [done | lia].
Qed.

Lemma memset0_length n bytes : length (memset0 n bytes) = length bytes.
Proof.
  revert bytes. induction n as [|n IH]; intros [|c rest]; simpl; auto.
Qed.

Lemma memset0_all n bytes :
  (length bytes <= n)%nat -> memset0 n bytes = replicate (length bytes) NUL.
Proof.
  revert bytes. induction n as [|n IH]; intros [|c rest]; simpl; intros H;
    try reflexivity; try lia.
  f_equal. apply IH. lia.
Qed.

Lemma memset0_none bytes : memset0 0 bytes = bytes.
Proof. destruct bytes; reflexivity. Qed.

(** ** The queue *)

Lemma init_queue_inv q : queue_inv (init_queue q).
Proof. split; simpl; unfold QUEUE_SIZE; lia. Qed.

Lemma enque_inv m q : queue_inv q -> queue_inv (enque m q).2.
Proof.
  intros [Hl Hb He Hw]. unfold enque, enque_index, QUEUE_SIZE in *.
  destruct (Z.ltb_spec (current_load q) 64); [|split; simpl; assumption].
  destruct (Z.eqb_spec (end_ q) 64); split; simpl; unfold QUEUE_SIZE; lia.
Qed.

Lemma deque_inv q : queue_inv q -> queue_inv (deque q).2.
Proof.
  intros [Hl Hb He Hw]. unfold deque, QUEUE_SIZE in *.
  destruct (Z.ltb_spec 0 (current_load q)); [|split; simpl; assumption].
  split; simpl; unfold QUEUE_SIZE; lia.
Qed.

Lemma queue_step_inv op q : queue_inv q -> queue_inv (queue_step op q).2.
Proof. destruct op; simpl; [apply enque_inv | apply deque_inv]. Qed.

Lemma queue_run_inv ops q : queue_inv q -> queue_inv (queue_run ops q).2.
Proof.
  revert q. induction ops as [|op ops IH]; intros q Hq; simpl; [done|].
  apply IH, queue_step_inv, Hq.
Qed.

Create HintDb queue.
#[local] Hint Resolve init_queue_inv enque_inv deque_inv queue_step_inv
  queue_run_inv : queue.

Lemma enque_index_range q : queue_inv q -> 0 <= enque_index q < QUEUE_SIZE.
Proof.
  intros [Hl Hb He Hw]. unfold enque_index, QUEUE_SIZE in *.
  destruct (Z.eqb_spec (end_ q) 64); lia.
Qed.

Lemma queue_step_length op q :
  length (messages (queue_step op q).2) = length (messages q).
Proof.
  destruct op; simpl; unfold enque, deque.
  - destruct (current_load q <? QUEUE_SIZE); simpl; [apply array_set_length | done].
  - destruct (0 <? current_load q); simpl; [apply array_set_length | done].
Qed.

Lemma queue_run_length ops q :
  length (messages (queue_run ops q).2) = length (messages q).
Proof.
  revert q. induction ops as [|op ops IH]; intros q; simpl; [done|].
  rewrite IH. apply queue_step_length.
Qed.

Lemma memset_messages_length n ms :
  length (memset_messages n ms) = length ms.
Proof. revert n. induction ms as [|m ms IH]; intros n; simpl; auto. Qed.

Lemma queue_step_load op q :
  queue_inv q ->
  current_load (queue_step op q).2
  = current_load q + enq_ok (queue_step op q).1 - deq_ok (queue_step op q).1.
Proof.
  intros [Hl _ _ _]. destruct op; simpl; unfold enque, deque.
  - destruct (current_load q <? QUEUE_SIZE); simpl; lia.
  - destruct (Z.ltb_spec 0 (current_load q)); simpl; lia.
Qed.

Lemma queue_run_load ops q :
  queue_inv q ->
  current_load (queue_run ops q).2
  = current_load q + outstanding (queue_run ops q).1.
Proof.
  revert q. induction ops as [|op ops IH]; intros q Hq; simpl; [lia|].
  rewrite IH by (apply queue_step_inv, Hq).
  rewrite queue_step_load by assumption. lia.
Qed.

(** *** The window of live records *)

Lemma window_length ms i n : length (window ms i n) = n.
Proof. revert i. induction n as [|n IH]; intros i; simpl; auto. Qed.

Lemma window_set_outside ms j x i n :
  0 <= i < QUEUE_SIZE ->
  (forall k, 0 <= k < Z.of_nat n -> (i + k) mod QUEUE_SIZE <> j) ->
  window (array_set ms j x) i n = window ms i n.
Proof.
  unfold QUEUE_SIZE. revert i. induction n as [|n IH]; intros i Hi Hk; simpl; [done|].
  f_equal.
  - apply array_get_set_ne. specialize (Hk 0). lia.
  - unfold QUEUE_SIZE. apply IH; [lia|].
    intros k Hkn. specialize (Hk (k + 1)). lia.
Qed.

Lemma window_snoc ms i n :
  0 <= i < QUEUE_SIZE ->
  window ms i (S n)
  = window ms i n ++ [array_get zero_MESSAGE ms ((i + Z.of_nat n) mod QUEUE_SIZE)].
Proof.
  unfold QUEUE_SIZE. revert i. induction n as [|n IH]; intros i Hi.
  - simpl. do 2 f_equal. lia.
  - change (window ms i (S (S n)))
      with (array_get zero_MESSAGE ms i :: window ms (Z.rem (i + 1) QUEUE_SIZE) (S n)).
    unfold QUEUE_SIZE. rewrite IH by lia. simpl. do 4 f_equal. lia.
Qed.

Lemma enque_contents m q :
  queue_inv q -> length (messages q) = Z.to_nat QUEUE_SIZE ->
  current_load q < QUEUE_SIZE ->
  enque m q = (true, (enque m q).2) /\ contents (enque m q).2 = contents q ++ [m].
Proof.
  intros Hq Hlen Hload. pose proof (enque_index_range q Hq) as Hidx.
  destruct Hq as [Hl Hb He Hw]. unfold enque, contents.
  destruct (Z.ltb_spec (current_load q) QUEUE_SIZE) as [_|]; [|lia].
  simpl. split; [done|].
  replace (Z.to_nat (current_load q + 1)) with (S (Z.to_nat (current_load q))) by lia.
  rewrite window_snoc by assumption.
  assert (Hslot : (begin q + Z.of_nat (Z.to_nat (current_load q))) mod QUEUE_SIZE
                  = enque_index q).
  { unfold enque_index, QUEUE_SIZE in *.
    destruct (Z.eqb_spec (end_ q) 64); lia. }
  rewrite Hslot. f_equal.
  - apply window_set_outside; [assumption|].
    intros k Hk. unfold QUEUE_SIZE in *. lia.
  - f_equal. apply array_get_set_eq. unfold QUEUE_SIZE in *. lia.
Qed.

Lemma deque_contents q :
  queue_inv q -> 0 < current_load q ->
  exists m, deque q = (Some m, (deque q).2)
            /\ contents q = m :: contents (deque q).2.
Proof.
  intros [Hl Hb He Hw] Hload. unfold deque, contents.
  destruct (Z.ltb_spec 0 (current_load q)) as [_|]; [|lia].
  simpl. eexists. split; [reflexivity|].
  replace (Z.to_nat (current_load q)) with (S (Z.to_nat (current_load q - 1))) by lia.
  simpl. f_equal. symmetry. apply window_set_outside.
  - unfold QUEUE_SIZE in *. lia.
  - intros k Hk. unfold QUEUE_SIZE in *. lia.
Qed.

Lemma deque_empty q : current_load q <= 0 -> deque q = (None, q).
Proof.
  intros H. unfold deque. destruct (Z.ltb_spec 0 (current_load q)); [lia | done].
Qed.

(** *** Slots keep their size *)

Lemma wf_messages_spec ms :
  wf_messages ms = true
  <-> length ms = Z.to_nat QUEUE_SIZE
      /\ Forall (fun m => length (data m) = Z.to_nat MESSAGE_SIZE) ms.
Proof.
  unfold wf_messages, wf_MESSAGE.
  rewrite andb_true_iff, Nat.eqb_eq, forallb_forall, Forall_forall.
  split; intros [Hl Hf]; split; try assumption; intros m Hm.
  - apply Nat.eqb_eq, Hf, list_elem_of_In, Hm.
  - apply Nat.eqb_eq, Hf, list_elem_of_In, Hm.
Qed.

Lemma memset_messages_slots n ms :
  Forall (fun m => length (data m) = Z.to_nat MESSAGE_SIZE) ms ->
  Forall (fun m => length (data m) = Z.to_nat MESSAGE_SIZE) (memset_messages n ms).
Proof.
  intros H. revert n. induction H as [|m ms Hm _ IH]; intros n; simpl;
    constructor; [|apply IH].
  simpl. rewrite memset0_length. exact Hm.
Qed.

Lemma init_queue_slots q :
  wf_messages (messages q) = true -> slots_ok (messages (init_queue q)).
Proof.
  intros [Hl Hf]%wf_messages_spec. split; simpl.
  - rewrite memset_messages_length. exact Hl.
  - apply memset_messages_slots, Hf.
Qed.

Lemma array_set_slots ms i m :
  slots_ok ms -> length (data m) = Z.to_nat MESSAGE_SIZE ->
  slots_ok (array_set ms i m).
Proof.
  intros [Hl Hf] Hm. split; [rewrite array_set_length; exact Hl|].
  unfold array_set. destruct (i <? 0); [exact Hf|].
  apply Forall_insert; assumption.
Qed.

Lemma array_get_slots ms i :
  slots_ok ms ->
  length (data (array_get zero_MESSAGE ms i)) = Z.to_nat MESSAGE_SIZE.
Proof.
  intros [_ Hf]. unfold array_get.
  destruct (i <? 0); [apply length_replicate|].
  destruct (ms !! Z.to_nat i) as [m|] eqn:Hm; simpl; [|reflexivity].
  exact (Forall_lookup_1 _ _ _ _ Hf Hm).
Qed.

Lemma queue_step_slots op q :
  slots_ok (messages q) -> wf_op op = true ->
  slots_ok (messages (queue_step op q).2).
Proof.
  intros Hs Hop. destruct op as [m|]; simpl; unfold enque, deque.
  - destruct (current_load q <? QUEUE_SIZE); cbn [snd messages]; [|exact Hs].
    apply array_set_slots; [exact Hs|].
    apply Nat.eqb_eq, Hop.
  - destruct (0 <? current_load q); cbn [snd messages]; [|exact Hs].
    apply array_set_slots; [exact Hs|]. cbn [data].
    rewrite memset0_length. apply array_get_slots, Hs.
Qed.

(** The slot [deque] leaves behind holds only zero bytes. *)
Lemma deque_zeroes q :
  queue_inv q -> slots_ok (messages q) -> 0 < current_load q ->
  array_get zero_MESSAGE (messages (deque q).2) (begin q) = zero_MESSAGE.
Proof.
  intros [Hl Hb He Hw] Hs Hload. unfold deque.
  destruct (Z.ltb_spec 0 (current_load q)) as [_|]; [|lia]. cbn [snd messages].
  rewrite array_get_set_eq by (destruct Hs as [-> _]; unfold QUEUE_SIZE in *; lia).
  unfold zero_MESSAGE. f_equal.
  rewrite memset0_all; rewrite (array_get_slots _ _ Hs); [reflexivity | lia].
Qed.

(** *** The array queue behaves as the bounded FIFO of the design *)

Lemma contents_length q :
  0 <= current_load q -> Z.of_nat (length (contents q)) = current_load q.
Proof. intros H. unfold contents. rewrite window_length. lia. Qed.

Lemma queue_step_refines op q :
  queue_inv q -> slots_ok (messages q) ->
  (queue_step op q).1 = (Fifo.step op (contents q)).1
  /\ contents (queue_step op q).2 = (Fifo.step op (contents q)).2.
Proof.
  intros Hq Hs. pose proof (inv_load q Hq) as Hl.
  pose proof (contents_length q (proj1 Hl)) as Hlen.
  destruct op as [m|]; simpl.
  - unfold Fifo.enqueue, Fifo.capacity.
    destruct (Nat.ltb_spec (length (contents q)) 64) as [Hlt|Hge].
    + destruct (enque_contents m q Hq (proj1 Hs)) as [Hr Hc];
        [unfold QUEUE_SIZE; lia|].
      rewrite Hr. simpl. split; [reflexivity | exact Hc].
    + unfold enque. unfold QUEUE_SIZE in *.
      destruct (Z.ltb_spec (current_load q) 64); [lia|]. split; reflexivity.
  - destruct (contents q) as [|oldest rest] eqn:Hc; simpl.
    + rewrite deque_empty by (simpl in Hlen; lia). simpl. split; [reflexivity | exact Hc].
    + destruct (deque_contents q Hq) as (m & Hr & Hm); [simpl in Hlen; lia|].
      rewrite Hr. simpl. rewrite Hc in Hm. injection Hm as -> ->.
      split; reflexivity.
Qed.

Lemma queue_run_refines ops q :
  queue_inv q -> slots_ok (messages q) -> forallb wf_op ops = true ->
  (queue_run ops q).1 = (Fifo.run ops (contents q)).1
  /\ contents (queue_run ops q).2 = (Fifo.run ops (contents q)).2
  /\ slots_ok (messages (queue_run ops q).2).
Proof.
  revert q. induction ops as [|op ops IH]; intros q Hq Hs Hops; simpl.
  - repeat split; try reflexivity; apply Hs.
  - simpl in Hops. apply andb_true_iff in Hops as [Hop Hops].
    destruct (queue_step_refines op q Hq Hs) as [Hr Hc].
    destruct (IH (queue_step op q).2) as (IH1 & IH2 & IH3);
      [apply queue_step_inv, Hq | apply queue_step_slots; assumption | exact Hops |].
    rewrite Hc in IH1, IH2. rewrite Hr, IH1, IH2. repeat split; apply IH3.
Qed.

Lemma init_queue_contents q : contents (init_queue q) = [].
Proof. reflexivity. Qed.

(** What [init_queue] does to the slots: the [QUEUE_SIZE * sizeof(int)]
    bytes it clears are the first four slots, the other sixty stay. *)
Lemma init_queue_messages q :
  wf_messages (messages q) = true ->
  messages (init_queue q) = replicate 4 zero_MESSAGE ++ drop 4 (messages q).
Proof.
  intros [Hl Hf]%wf_messages_spec. unfold init_queue. cbn [messages].
  assert (Hnone : forall ms, memset_messages 0 ms = ms).
  { induction ms as [|[d] ms IH]; cbn [memset_messages data]; [done|].
    change (0 - Z.to_nat MESSAGE_SIZE)%nat with 0%nat.
    rewrite memset0_none, IH. reflexivity. }
  destruct (messages q) as [|m0 [|m1 [|m2 [|m3 rest]]]]; try discriminate Hl.
  repeat match goal with
         | H : Forall _ (_ :: _) |- _ => apply Forall_cons in H as [? H]
         end.
  change (Z.to_nat (QUEUE_SIZE * sizeof_int)) with 256%nat.
  cbn [memset_messages]. change (Z.to_nat MESSAGE_SIZE) with 64%nat in *.
  change (256 - 64 - 64 - 64 - 64)%nat with 0%nat.
  rewrite Hnone, !memset0_all by lia.
  repeat match goal with H : length (data _) = _ |- _ => rewrite H; clear H end.
  reflexivity.
Qed.


(** At boot the queue is in zeroed static storage, and there the partial
    clearing does not show: the queue after [init_queue] is all zero. *)
Example init_queue_at_power_on : init_queue zero_queue = zero_queue.
Proof. vm_compute. reflexivity. Qed.

(** C7: when [current_load] is [QUEUE_SIZE], [enque] returns false and the
    queue it leaves is the queue it found: slots, [begin], [end] and
    [current_load] are all as before, the record is dropped. *)
Theorem enque_full_drops (message : MESSAGE) (q : queue_t) :
  current_load q = QUEUE_SIZE -> enque message q = (false, q).
Proof.
  intros Hfull. unfold enque. rewrite Hfull.
  rewrite Z.ltb_irrefl. reflexivity.
Qed.

Lemma enque_full_drops_witness :
  current_load full_queue = QUEUE_SIZE
  /\ enque (text_MESSAGE "Cmd 10, Clear Gpio: 03 ") full_queue
     = (false, full_queue).
Proof.
  split; [vm_compute; reflexivity|].
  apply (enque_full_drops (text_MESSAGE "Cmd 10, Clear Gpio: 03 ") full_queue).
  vm_compute; reflexivity.
Defined.

(** C8: after any sequence of operations on an initialised queue, [deque]
    returns the oldest record that was enqueued with success and not yet
    dequeued, the slot it was in is left all zero, and the records behind
    it stay in arrival order; on the empty queue [deque] returns none and
    the queue is unchanged. Every result in the history is the result of
    the bounded FIFO of the design. *)
Theorem deque_fifo (q0 : queue_t) (ops : list queue_op) :
  wf_messages (messages q0) = true ->
  forallb wf_op ops = true ->
  let q := (queue_run ops (init_queue q0)).2 in
  (queue_run ops (init_queue q0)).1 = (Fifo.run ops []).1
  /\ match (Fifo.run ops []).2 with
     | [] => deque q = (None, q)
     | oldest :: rest =>
         (deque q).1 = Some oldest
         /\ array_get zero_MESSAGE (messages (deque q).2) (begin q)
            = zero_MESSAGE
         /\ contents (deque q).2 = rest
     end.
Proof.
  intros Hq0 Hops q.
  destruct (queue_run_refines ops (init_queue q0)) as (Hres & Hcont & Hslots);
    [apply init_queue_inv | apply init_queue_slots, Hq0 | exact Hops |].
  rewrite init_queue_contents in Hres, Hcont.
  split; [exact Hres|]. fold q in Hcont, Hslots.
  assert (Hinv : queue_inv q) by (unfold q; auto with queue).
  pose proof (contents_length q (proj1 (inv_load q Hinv))) as Hlen.
  destruct (Fifo.run ops []).2 as [|oldest rest].
  - apply deque_empty. rewrite Hcont in Hlen. simpl in Hlen. lia.
  - assert (Hload : 0 < current_load q)
      by (rewrite Hcont in Hlen; simpl in Hlen; lia).
    destruct (deque_contents q Hinv Hload) as (m & Hr & Hm).
    rewrite Hcont in Hm. injection Hm as <- <-.
    split; [rewrite Hr; reflexivity|].
    split; [apply deque_zeroes; assumption | reflexivity].
Qed.

Lemma deque_fifo_witness :
  let ops :=
    [Enque (text_MESSAGE "first"); Deque; Deque;
     Enque (text_MESSAGE "second"); Enque (text_MESSAGE "third")] in
  let q := (queue_run ops (init_queue used_queue)).2 in
  wf_messages (messages used_queue) = true
  /\ forallb wf_op ops = true
  /\ (queue_run ops (init_queue used_queue)).1
     = [Enqued true; Dequed (Some (text_MESSAGE "first")); Dequed None;
        Enqued true; Enqued true]
  /\ (deque q).1 = Some (text_MESSAGE "second")
  /\ array_get zero_MESSAGE (messages (deque q).2) (begin q) = zero_MESSAGE
  /\ contents (deque q).2 = [text_MESSAGE "third"].
Proof.
  intros ops q. split; [reflexivity|]. split; [reflexivity|].
  pose proof (deque_fifo used_queue ops eq_refl eq_refl) as H.
  exact H.
Defined.

(** C10: after any sequence of [enque] and [deque] on an initialised
    queue, [current_load] is between 0 and 64, [begin] between 0 and 63,
    [end] between 0 and 64; the slot the next [enque] writes is between 0
    and 63, inside the array, whose size never changes; and
    [current_load] is the number of records enqueued and not yet
    dequeued. *)
Theorem queue_counters_in_range (q0 : queue_t) (ops : list queue_op) :
  let r := queue_run ops (init_queue q0) in
  0 <= current_load r.2 <= QUEUE_SIZE
  /\ 0 <= begin r.2 < QUEUE_SIZE
  /\ 0 <= end_ r.2 <= QUEUE_SIZE
  /\ 0 <= enque_index r.2 < QUEUE_SIZE
  /\ length (messages r.2) = length (messages q0)
  /\ current_load r.2 = outstanding r.1.
Proof.
  intros r.
  assert (Hinv : queue_inv r.2) by (unfold r; auto with queue).
  destruct Hinv as [Hl Hb He Hw] eqn:E. clear E.
  repeat split; try tauto.
  - apply enque_index_range. split; assumption.
  - apply enque_index_range. split; assumption.
  - unfold r. rewrite queue_run_length. apply memset_messages_length.
  - unfold r. rewrite queue_run_load by apply init_queue_inv. reflexivity.
Qed.

(** [end] does reach [QUEUE_SIZE]: after 64 records it is 64 until the
    next [enque] wraps it. *)
Example end_reaches_queue_size :
  end_ full_queue = QUEUE_SIZE
  /\ end_ (enque zero_MESSAGE (deque full_queue).2).2 = 1.
Proof. split; vm_compute; reflexivity. Qed.

(** ** The I2C handler *)

Section Handler.
Context {hw : Type} {SDK : PicoSDK hw} {Config : UserConfig}.

Lemma write_command_context rec (w : device hw) :
  context (write_command rec w) = context w.
Proof. unfold write_command. split_switch; reflexivity. Qed.

Lemma write_command_i2c rec (w : device hw) :
  i2c0_tx (write_command rec w) = i2c0_tx w
  /\ i2c0_slave (write_command rec w) = i2c0_slave w
  /\ stdout (write_command rec w) = stdout w.
Proof. unfold write_command. split_switch; repeat split; reflexivity. Qed.

(** C4: a transaction-finished event clears [reg_address_written] and
    nothing else: [reg_address], the 128 cells, the status flags, the
    queue (so no trace record), the board and the bus are as before. *)
Theorem finish_only_clears_address_written rec (w : device hw) :
  exists w',
    i2c_slave_handler rec I2C_SLAVE_FINISH w = Some w'
    /\ reg_address_written (context w') = false
    /\ reg_address (context w') = reg_address (context w)
    /\ reg (context w') = reg (context w)
    /\ reg_status (context w') = reg_status (context w)
    /\ i2c_add (context w') = i2c_add (context w)
    /\ status w' = status w
    /\ queue w' = queue w
    /\ board w' = board w
    /\ i2c0_slave w' = i2c0_slave w
    /\ i2c0_tx w' = i2c0_tx w
    /\ stdout w' = stdout w.
Proof. eexists. split; [reflexivity|]. repeat split. Qed.

(** C5: two address bytes with a transaction-finished between them and
    no data byte: the second one changes [reg_address] (and, from the
    state the finish left, [reg_address_written]) and nothing else; the
    device is the one the first address byte left, with the second
    address selected. No cell, flag, queue slot or pin changes. *)
Theorem second_address_byte_replaces rec1 rec2 rec3 a1 a2 (w : device hw) :
  reg_address_written (context w) = false ->
  exists w1 w2,
    run [Irq rec1 (I2C_SLAVE_RECEIVE a1)] w = Some w1
    /\ run [Irq rec1 (I2C_SLAVE_RECEIVE a1); Irq rec2 I2C_SLAVE_FINISH;
            Irq rec3 (I2C_SLAVE_RECEIVE a2)] w = Some w2
    /\ w2 = with_context w1 (set_reg_address (context w1) (to_u8 a2))
    /\ reg_address (context w2) = to_u8 a2
    /\ reg_address_written (context w2) = true
    /\ reg (context w2) = reg (context w)
    /\ status w2 = status w
    /\ queue w2 = queue w
    /\ board w2 = board w
    /\ i2c0_tx w2 = i2c0_tx w.
Proof.
  intros Hidle. do 2 eexists. simpl. rewrite Hidle. simpl.
  split; [reflexivity|]. split; [reflexivity|]. repeat split.
Qed.


Lemma in_reg_spec a : in_reg a = true <-> 0 <= a < REG_COUNT.
Proof. unfold in_reg. rewrite andb_true_iff, Z.leb_le, Z.ltb_lt. tauto. Qed.

Lemma receive_data rec v (w : device hw) :
  reg_address_written (context w) = true ->
  0 <= reg_address (context w) < REG_COUNT ->
  i2c_slave_handler rec (I2C_SLAVE_RECEIVE v) w
  = Some (write_command rec (store v w)).
Proof.
  intros Hset Ha. simpl. rewrite Hset. simpl.
  apply in_reg_spec in Ha. rewrite Ha. reflexivity.
Qed.



End Handler.

Lemma second_address_byte_replaces_witness :
  let w := booted true false in
  let z := zero_MESSAGE in
  reg_address_written (context w) = false
  /\ exists w1 w2,
       run [Irq z (I2C_SLAVE_RECEIVE 11)] w = Some w1
       /\ run [Irq z (I2C_SLAVE_RECEIVE 11); Irq z I2C_SLAVE_FINISH;
               Irq z (I2C_SLAVE_RECEIVE 100)] w = Some w2
       /\ w2 = with_context w1 (set_reg_address (context w1) 100)
       /\ reg (context w2) = reg (context w)
       /\ status w2 = status w
       /\ queue w2 = queue w
       /\ board w2 = board w.
Proof.
  intros w z. split; [reflexivity|].
  destruct (second_address_byte_replaces z z z 11 100 w eq_refl)
    as (w1 & w2 & H1 & H2 & Heq & _ & _ & Hreg & Hst & Hq & Hb & _).
  exists w1, w2. conjs; assumption.
Defined.


Section Transactions.
Context {hw : Type} {SDK : PicoSDK hw} {Config : UserConfig}.

Lemma run_cons o os (w : device hw) :
  run (o :: os) w
  = match occur o w with Some w' => run os w' | None => None end.
Proof. reflexivity. Qed.

Lemma receive_address rec a (w : device hw) :
  reg_address_written (context w) = false ->
  i2c_slave_handler rec (I2C_SLAVE_RECEIVE a) w
  = Some (with_context w
            (set_reg_address_written
               (set_reg_address (context w) (to_u8 a)) true)).
Proof. intros Hidle. cbn [i2c_slave_handler]. rewrite Hidle. reflexivity. Qed.

Lemma finish_event rec (w : device hw) :
  i2c_slave_handler rec I2C_SLAVE_FINISH w
  = Some (with_context w (set_reg_address_written (context w) false)).
Proof. reflexivity. Qed.

Lemma read_command_unmatched rec (w : device hw) :
  read_phase_command (reg_address (context w)) = false ->
  read_command rec w = (rec, w).
Proof.
  unfold read_command. generalize (reg_address (context w)). intros a.
  split_switch; intros Hcmd; try discriminate Hcmd; reflexivity.
Qed.

Lemma read_command_rejected rec (w : device hw) :
  reg_address (context w) = 85 \/ reg_address (context w) = 95 ->
  is_port_pico w = false ->
  read_command rec w
  = (not_valid rec w, log (not_valid rec w) (raise_cmd_flag w)).
Proof.
  intros Ha Hid. unfold read_command, not_valid.
  destruct Ha as [-> | ->]; cbv beta iota zeta; rewrite Hid; reflexivity.
Qed.

Lemma read_command_keeps_cell rec (w : device hw) :
  recomputes_on_read (i2c_add (context w)) (reg_address (context w)) = false ->
  context (read_command rec w).2 = context w
  /\ i2c0_tx (read_command rec w).2 = i2c0_tx w.
Proof.
  unfold recomputes_on_read. intros [Hcmd | Hcmd]%andb_false_iff.
  - rewrite read_command_unmatched by exact Hcmd. split; reflexivity.
  - apply negb_false_iff, andb_true_iff in Hcmd as [Ha Hid].
    apply negb_true_iff in Hid.
    rewrite read_command_rejected; [split; reflexivity | | exact Hid].
    apply orb_true_iff in Ha as [Ha | Ha]; apply Z.eqb_eq in Ha; auto.
Qed.

Lemma request_sends_cell rec (w : device hw) :
  0 <= reg_address (context w) < REG_COUNT ->
  recomputes_on_read (i2c_add (context w)) (reg_address (context w)) = false ->
  exists w',
    i2c_slave_handler rec I2C_SLAVE_REQUEST w = Some w'
    /\ i2c0_tx w' = cur w :: i2c0_tx w.
Proof.
  intros Ha Hkeep. destruct (read_command_keeps_cell rec w Hkeep) as [Hc Htx].
  apply in_reg_spec in Ha. cbn [i2c_slave_handler]. rewrite Ha.
  eexists. split; [reflexivity|].
  cbn. rewrite Htx. unfold cur. rewrite Hc. reflexivity.
Qed.

(** C3, as the code has it: a byte [v] written to address [a] of the
    register file is the byte a following read transaction at [a]
    returns, whatever happens to the board in between, unless [a] is a
    read-phase command that recomputes its cell before sending it:
    1, 2, 13, 15, 25, 35, 45, 55, 65 and 100 on every identity, 85 and 95
    on the port identity. No write-phase command changes the cell after
    the store. *)
Theorem register_read_back rec1 rec2 rec3 rec4 rec5 rec6 a v b' restart
    (w : device hw) :
  reg_address_written (context w) = false ->
  length (reg (context w)) = Z.to_nat REG_COUNT ->
  0 <= a < REG_COUNT ->
  0 <= v < 256 ->
  recomputes_on_read (i2c_add (context w)) a = false ->
  exists w',
    run (write_transaction rec1 rec2 rec3 a v
         ++ [Env b']
         ++ read_transaction rec4 rec5 rec6 a restart) w = Some w'
    /\ i2c0_tx w' = v :: i2c0_tx w.
Proof.
  intros Hidle Hlen Ha Hv Hkeep.
  assert (Hua : to_u8 a = a)
    by (unfold to_u8, REG_COUNT in *; apply Z.mod_small; lia).
  assert (Huv : to_u8 v = v) by (unfold to_u8; apply Z.mod_small; lia).
  unfold write_transaction, read_transaction. cbn [app].
  rewrite run_cons. cbn [occur].
  rewrite receive_address by exact Hidle. rewrite Hua.
  set (w1 := with_context w _).
  rewrite run_cons. cbn [occur].
  rewrite (receive_data rec2 v w1) by (cbn; done).
  set (w2 := write_command rec2 (store v w1)).
  assert (Hc2 : context w2 = context (store v w1))
    by apply write_command_context.
  pose proof (write_command_i2c rec2 (store v w1)) as (Htx2 & _ & _).
  fold w2 in Htx2.
  rewrite run_cons. cbn [occur]. rewrite finish_event.
  rewrite run_cons. cbn [occur].
  rewrite run_cons. cbn [occur].
  rewrite receive_address by reflexivity. rewrite Hua.
  set (w5 := with_context (with_board _ b') _).
  assert (Hcur : cur w5 = v).
  { unfold cur, w5. cbn. rewrite Hc2. cbn. rewrite Huv.
    apply array_get_set_eq. unfold REG_COUNT in *. lia. }
  assert (Haddr : reg_address (context w5) = a) by reflexivity.
  assert (Hid : i2c_add (context w5) = i2c_add (context w))
    by (cbn; rewrite Hc2; reflexivity).
  assert (Htx : i2c0_tx w5 = i2c0_tx w) by (cbn; exact Htx2).
  destruct restart; cbn [app]; rewrite run_cons; cbn [occur].
  - rewrite finish_event.
    set (w6 := with_context w5 _).
    destruct (request_sends_cell rec6 w6) as (w' & Hreq & Hsent).
    { change (reg_address (context w6)) with (reg_address (context w5)).
      rewrite Haddr. exact Ha. }
    { change (reg_address (context w6)) with (reg_address (context w5)).
      change (i2c_add (context w6)) with (i2c_add (context w5)).
      rewrite Haddr, Hid. exact Hkeep. }
    exists w'. rewrite run_cons. cbn [occur]. rewrite Hreq.
    split; [reflexivity|].
    rewrite Hsent. change (cur w6) with (cur w5).
    change (i2c0_tx w6) with (i2c0_tx w5).
    rewrite Hcur, Htx. reflexivity.
  - destruct (request_sends_cell rec6 w5) as (w' & Hreq & Hsent).
    { rewrite Haddr. exact Ha. }
    { rewrite Haddr, Hid. exact Hkeep. }
    exists w'. rewrite Hreq. split; [reflexivity|].
    rewrite Hsent, Hcur, Htx. reflexivity.
Qed.

End Transactions.

Lemma register_read_back_witness :
  let w := booted true false in
  let z := zero_MESSAGE in
  reg_address_written (context w) = false
  /\ length (reg (context w)) = Z.to_nat REG_COUNT
  /\ recomputes_on_read (i2c_add (context w)) 60 = false
  /\ exists w',
       run (write_transaction z z z 60 7
            ++ [Env (Rp2040.strapped false false)]
            ++ read_transaction z z z 60 true) w = Some w'
       /\ i2c0_tx w' = 7 :: i2c0_tx w.
Proof.
  intros w z. do 3 (split; [reflexivity|]).
  apply (register_read_back z z z z z z 60 7 (Rp2040.strapped false false)
           true w); try reflexivity; unfold REG_COUNT; lia.
Defined.

(** C3 as it is worded fails at the status register: 100 is no
    write-phase command, 255 is written to it, and the read that follows
    returns the status flags, 0 on a device without errors. *)
Lemma status_cell_not_read_back :
  let w := booted true false in
  let z := zero_MESSAGE in
  reg_address_written (context w) = false
  /\ write_phase_command 100 = false
  /\ i2c0_tx w = []
  /\ i2c0_tx <$> run (write_transaction z z z 100 255
                      ++ read_transaction z z z 100 true) w
     = Some [0].
Proof. repeat split; vm_compute; reflexivity. Qed.

Section PortGate.
Context {hw : Type} {SDK : PicoSDK hw} {Config : UserConfig}.

(** What the four port-wide write commands do on a device that is not
    the port Pico: the byte is stored, the board is not touched, the
    rejection text goes to [enque]; 80, 81 and 90 raise [status.cmd],
    91 leaves the flags as they are. *)
Lemma port_write_rejected rec v (w : device hw) :
  reg_address_written (context w) = true ->
  (reg_address (context w) = 80 \/ reg_address (context w) = 81
   \/ reg_address (context w) = 90 \/ reg_address (context w) = 91) ->
  is_port_pico w = false ->
  exists w',
    i2c_slave_handler rec (I2C_SLAVE_RECEIVE v) w = Some w'
    /\ board w' = board w
    /\ queue w' = (enque (not_valid rec w) (queue w)).2
    /\ context w' = context (store v w)
    /\ status w'
       = if reg_address (context w) =? 91 then status w
         else raise_cmd (status w).
Proof.
  intros Hset Ha Hid.
  rewrite receive_data
    by (try assumption; unfold REG_COUNT; intuition lia).
  eexists. split; [reflexivity|].
  assert (Hid' : is_port_pico (store v w) = false) by exact Hid.
  unfold write_command, not_valid.
  change (reg_address (context (store v w))) with (reg_address (context w)).
  destruct Ha as [-> | [-> | [-> | ->]]]; cbv beta iota zeta;
    rewrite Hid'; repeat split.
Qed.

(** The two port-wide read commands on a device that is not the port
    Pico: the cell is sent as it is, the board is only read, the
    rejection text goes to [enque] and [status.cmd] is raised. *)
Lemma port_read_rejected rec (w : device hw) :
  (reg_address (context w) = 85 \/ reg_address (context w) = 95) ->
  is_port_pico w = false ->
  exists w',
    i2c_slave_handler rec I2C_SLAVE_REQUEST w = Some w'
    /\ board w' = board w
    /\ context w' = context w
    /\ cmd (status w') = true
    /\ i2c0_tx w' = cur w :: i2c0_tx w
    /\ queue w'
       = (enque (sprintf (not_valid rec w) "Read Cmd : %02d , Value: %02d "
                   [reg_address (context w); cur w])
            (enque (not_valid rec w) (queue w)).2).2.
Proof.
  intros Ha Hid. cbn [i2c_slave_handler].
  assert (Hin : in_reg (reg_address (context w)) = true)
    by (apply in_reg_spec; unfold REG_COUNT; lia).
  rewrite Hin, read_command_rejected by assumption.
  eexists. split; [reflexivity|]. repeat split.
Qed.

End PortGate.

(** C1, at the port-1 output command: on a device with identity 0x22,
    command 91 with data 255 leaves the board alone, stores the byte and
    queues the rejection text, and [status.cmd] is still clear afterwards;
    the same transaction with command 90 on the same device raises it. *)
Theorem port1_output_rejection_leaves_cmd_clear :
  let z := zero_MESSAGE in
  let w91 := addressed true false 91 in
  let w90 := addressed true false 90 in
  i2c_add (context w91) = 0x22
  /\ cmd (status w91) = false
  /\ (exists w',
        i2c_slave_handler z (I2C_SLAVE_RECEIVE 255) w91 = Some w'
        /\ board w' = board w91
        /\ cur w' = 255
        /\ c_string <$> (data <$> contents (queue w'))
           = ["Cmd 91, Not Valid for I2C Pico: 0x22,  "%string]
        /\ cmd (status w') = false)
  /\ (exists w',
        i2c_slave_handler z (I2C_SLAVE_RECEIVE 255) w90 = Some w'
        /\ board w' = board w90
        /\ c_string <$> (data <$> contents (queue w'))
           = ["Cmd 90, Not Valid for I2C Pico: 0x22,  "%string]
        /\ cmd (status w') = true).
Proof.
  intros z w91 w90. do 2 (split; [reflexivity|]).
  split; eexists; (split; [vm_compute; reflexivity|]);
    repeat split; vm_compute; reflexivity.
Qed.

(** ** Boot and the main loop *)

Section Boot.
Context {hw : Type} {SDK : PicoSDK hw} {Config : UserConfig}.

Lemma configure_unsupported rec (w : device hw) :
  i2c_add (context w) <> 0x21 ->
  i2c_add (context w) <> 0x22 ->
  i2c_add (context w) <> 0x23 ->
  configure rec w
  = (sprintf rec "I2C address not supported for device at address  0x%02x"
       [i2c_add (context w)],
     with_status w (raise_cfg (status w))).
Proof.
  unfold configure. generalize (i2c_add (context w)). intros a.
  split_switch; intros H1 H2 H3; try congruence; reflexivity.
Qed.

(** The inner loop of [main] empties the queue, printing the records in
    the order they were queued, when it has a turn for each record. *)
Lemma drain_prints fuel : forall w : device hw,
  queue_inv (queue w) ->
  current_load (queue w) <= Z.of_nat fuel ->
  exists w',
    drain fuel w = Some w'
    /\ current_load (queue w') = 0
    /\ queue_inv (queue w')
    /\ stdout w'
       = rev (map (console_line (i2c_add (context w))) (contents (queue w)))
         ++ stdout w
    /\ context w' = context w
    /\ status w' = status w
    /\ i2c0_slave w' = i2c0_slave w.
Proof.
  induction fuel as [|fuel IH]; intros w Hinv Hfuel;
    pose proof (inv_load _ Hinv) as Hl;
    destruct (Z.ltb_spec 0 (current_load (queue w))) as [Hpos | Hzero].
  - lia.
  - exists w. cbn [drain]. rewrite deque_empty by exact Hzero.
    assert (Hload : current_load (queue w) = 0) by lia.
    unfold contents. rewrite Hload. conjs; try assumption; reflexivity.
  - destruct (deque_contents (queue w) Hinv Hpos) as (m & Hdeq & Hcont).
    cbn [drain]. rewrite Hdeq.
    set (w1 := sdk (gpio_put PICO_DEFAULT_LED_PIN true) _).
    destruct (IH w1) as (w' & Hrun & Hempty & Hinv' & Hout & Hc & Hs & Hi).
    { apply deque_inv, Hinv. }
    { change (current_load (queue w1))
        with (current_load (deque (queue w)).2).
      unfold deque.
      destruct (Z.ltb_spec 0 (current_load (queue w))); cbn [snd current_load]; lia. }
    exists w'. rewrite Hrun. conjs; try assumption; try reflexivity.
    rewrite Hout, Hcont. cbn [map rev]. rewrite <- app_assoc. reflexivity.
  - exists w. cbn [drain]. rewrite deque_empty by exact Hzero.
    assert (Hload : current_load (queue w) = 0) by lia.
    unfold contents. rewrite Hload. conjs; try assumption; reflexivity.
Qed.

Lemma main_loop_runs (s : main_state hw) :
  queue_inv (queue (dev s)) ->
  exists s',
    main_loop s = Some s'
    /\ current_load (queue (dev s')) = 0
    /\ queue_inv (queue (dev s'))
    /\ context (dev s') = context (dev s)
    /\ status (dev s') = status (dev s)
    /\ i2c0_slave (dev s') = i2c0_slave (dev s).
Proof.
  intros Hinv. unfold main_loop.
  set (w := (if 1500 <? mess s + 1 then _ else _).1).
  assert (Hq : queue w = queue (dev s)).
  { unfold w. destruct (1500 <? mess s + 1), (pulse s <? to_u16 (ctr s + 1));
      reflexivity. }
  assert (Hrest : context w = context (dev s) /\ status w = status (dev s)
                  /\ i2c0_slave w = i2c0_slave (dev s)).
  { unfold w. destruct (1500 <? mess s + 1), (pulse s <? to_u16 (ctr s + 1));
      conjs; reflexivity. }
  destruct Hrest as (Hc & Hs & Hi).
  destruct (drain_prints (Z.to_nat QUEUE_SIZE) w)
    as (w' & Hrun & Hempty & Hinv' & _ & Hc' & Hs' & Hi').
  { rewrite Hq. exact Hinv. }
  { rewrite Hq. pose proof (inv_load _ Hinv). lia. }
  rewrite Hrun. eexists. split; [reflexivity|]. cbn [dev].
  rewrite Hc', Hs', Hi', Hc, Hs, Hi. conjs; try assumption; reflexivity.
Qed.

Lemma main_loops_run n : forall s : main_state hw,
  queue_inv (queue (dev s)) ->
  exists s',
    main_loops n s = Some s'
    /\ queue_inv (queue (dev s'))
    /\ context (dev s') = context (dev s)
    /\ status (dev s') = status (dev s)
    /\ i2c0_slave (dev s') = i2c0_slave (dev s).
Proof.
  induction n as [|n IH]; intros s Hinv.
  - exists s. conjs; try assumption; reflexivity.
  - destruct (main_loop_runs s Hinv) as (s1 & Hrun & _ & Hinv1 & Hc & Hs & Hi).
    destruct (IH s1 Hinv1) as (s' & Hrun' & Hinv' & Hc' & Hs' & Hi').
    exists s'. cbn [main_loops]. rewrite Hrun, Hrun'.
    rewrite Hc', Hs', Hi', Hc, Hs, Hi. conjs; try assumption; reflexivity.
Qed.

Lemma main_loop_prints (s : main_state hw) :
  queue_inv (queue (dev s)) ->
  mess s + 1 <= 1500 ->
  exists s',
    main_loop s = Some s'
    /\ current_load (queue (dev s')) = 0
    /\ stdout (dev s')
       = rev (map (console_line (i2c_add (context (dev s))))
                (contents (queue (dev s))))
         ++ stdout (dev s).
Proof.
  intros Hinv Hmess. unfold main_loop.
  destruct (Z.ltb_spec 1500 (mess s + 1)) as [|_]; [lia|].
  set (w := (_, mess s + 1).1).
  assert (Hw : queue w = queue (dev s) /\ context w = context (dev s)
               /\ stdout w = stdout (dev s)).
  { unfold w. destruct (pulse s <? to_u16 (ctr s + 1)); conjs; reflexivity. }
  destruct Hw as (Hq & Hc & Ho).
  destruct (drain_prints (Z.to_nat QUEUE_SIZE) w)
    as (w' & Hrun & Hempty & _ & Hout & _).
  { rewrite Hq. exact Hinv. }
  { rewrite Hq. pose proof (inv_load _ Hinv). lia. }
  rewrite Hrun. eexists. split; [reflexivity|]. cbn [dev].
  rewrite Hout, Hq, Hc, Ho. split; [assumption | reflexivity].
Qed.

Lemma configure_context rec (w : device hw) :
  context (configure rec w).2 = context w
  /\ queue (configure rec w).2 = queue w
  /\ i2c0_slave (configure rec w).2 = i2c0_slave w
  /\ stdout (configure rec w).2 = stdout w.
Proof. unfold configure. split_switch; conjs; reflexivity. Qed.

Lemma boot_start_device rec (b : hw) :
  let r := boot_start rec (power_on b) in
  let a :=
    read_i2c_address (stdio_init_all (gpio_init_mask GPIO_BOOT_MASK b)) in
  r.1.1 = sprintf rec "Pico Slave boot for I2C address 0x%02x" [a.1]
  /\ i2c_add (context r.2) = a.1
  /\ board r.2 = a.2
  /\ queue r.2 = (enque r.1.1 (init_queue zero_queue)).2
  /\ cfg (status r.2) = false
  /\ stdout r.2
     = [format "Slave Version: %d.%d"
          [IO_SLAVE_VERSION_MAJOR; IO_SLAVE_VERSION_MINOR]].
Proof.
  unfold boot_start. cbn [power_on board with_status].
  destruct (watchdog_caused_reboot b); conjs; reflexivity.
Qed.

Lemma main_boot_identity rec (w : device hw) :
  i2c_add (context (dev (main_boot rec w)))
  = i2c_add (context (boot_start rec w).2).
Proof.
  change (i2c_add (context (dev (main_boot rec w))))
    with (i2c_add (context (configure (boot_start rec w).1.1
                              (boot_start rec w).2).2)).
  destruct (configure_context (boot_start rec w).1.1 (boot_start rec w).2)
    as (-> & _).
  reflexivity.
Qed.

(** C9: when the address read from the straps is none of 0x21, 0x22 and
    0x23, boot raises [status.cfg] and makes none of the direction and
    output calls of the switch (the board is the one the other calls of
    [main] leave), and still registers the handler at that address,
    queues the boot record and the error record, and runs the main loop,
    whose first turn prints both records and empties the queue. *)
Theorem boot_with_unsupported_identity rec (b : hw) :
  let w := dev (main_boot rec (power_on b)) in
  let a := i2c_add (context w) in
  let boot_rec :=
    sprintf rec "Pico Slave boot for I2C address 0x%02x" [a] in
  let error_rec :=
    sprintf boot_rec
      "I2C address not supported for device at address  0x%02x" [a] in
  a <> 0x21 -> a <> 0x22 -> a <> 0x23 ->
  cfg (status w) = true
  /\ board w = boot_board b
  /\ i2c0_slave w = Some a
  /\ contents (queue w) = [boot_rec; error_rec]
  /\ (forall n, exists s',
        main n rec b = Some s'
        /\ i2c0_slave (dev s') = Some a
        /\ cfg (status (dev s')) = true)
  /\ exists s1,
       main 1 rec b = Some s1
       /\ current_load (queue (dev s1)) = 0
       /\ stdout (dev s1)
          = [console_line a error_rec; console_line a boot_rec;
             format "Slave Version: %d.%d"
               [IO_SLAVE_VERSION_MAJOR; IO_SLAVE_VERSION_MINOR]].
Proof.
  intros w a boot_rec error_rec H21 H22 H23.
  pose proof (main_boot_identity rec (power_on b)) as Ha.
  fold w in Ha. fold a in Ha.
  destruct (boot_start_device rec b) as (Hrec & Hadd & Hboard & Hq & Hcfg & Hout).
  set (r := boot_start rec (power_on b)) in *.
  rewrite <- Ha in Hadd. rewrite <- Hadd in Hrec. fold boot_rec in Hrec.
  assert (Hconf : configure r.1.1 r.2
                  = (error_rec, with_status r.2 (raise_cfg (status r.2)))).
  { rewrite configure_unsupported by (rewrite <- Ha; assumption).
    rewrite <- Ha, Hrec. reflexivity. }
  assert (Hw : w = sdk (gpio_put PICO_DEFAULT_LED_PIN true)
                 (sdk (gpio_set_dir PICO_DEFAULT_LED_PIN true)
                    (sdk (gpio_init PICO_DEFAULT_LED_PIN)
                       (setup_slave a
                          (log error_rec
                             (with_status r.2 (raise_cfg (status r.2)))))))).
  { unfold a, w, main_boot. fold r. cbn [dev]. rewrite Hconf. reflexivity. }
  assert (Hqw : queue w
                = (enque error_rec
                     (enque boot_rec (init_queue zero_queue)).2).2).
  { rewrite Hw. change (queue _) with ((enque error_rec (queue r.2)).2).
    rewrite Hq, Hrec. reflexivity. }
  assert (Hinv : queue_inv (queue w)).
  { rewrite Hqw. auto with queue. }
  assert (Hcont : contents (queue w) = [boot_rec; error_rec])
    by (rewrite Hqw; reflexivity).
  assert (Hslave : i2c0_slave w = Some a) by (rewrite Hw; reflexivity).
  assert (Hflag : cfg (status w) = true) by (rewrite Hw; reflexivity).
  split; [exact Hflag|].
  split; [unfold boot_board; cbv zeta; rewrite <- Hboard, Hw; reflexivity|].
  split; [exact Hslave|].
  split; [exact Hcont|].
  split.
  - intros n. unfold main.
    destruct (main_loops_run n (main_boot rec (power_on b)) Hinv)
      as (s' & Hrun & _ & _ & Hs & Hi).
    exists s'. fold w in Hs, Hi. rewrite Hs, Hi. auto.
  - unfold main.
    destruct (main_loop_prints (main_boot rec (power_on b)) Hinv)
      as (s1 & Hrun & Hempty & Hprint); [cbn; lia|].
    exists s1. cbn [main_loops]. rewrite Hrun.
    split; [reflexivity|]. split; [exact Hempty|].
    rewrite Hprint. fold w. fold a. rewrite Hcont.
    rewrite Hw. change (stdout _) with (stdout r.2).
    rewrite Hout. reflexivity.
Qed.

End Boot.

Lemma boot_with_unsupported_identity_witness :
  let b := Rp2040.strapped false false in
  let w := dev (main_boot zero_MESSAGE (power_on b)) in
  i2c_add (context w) = 0x20
  /\ cfg (status w) = true
  /\ board w = boot_board b
  /\ Rp2040.gpio_oe (board w) = Z.shiftl 1 25
  /\ i2c0_slave w = Some 0x20
  /\ exists s1,
       main 1 zero_MESSAGE b = Some s1
       /\ stdout (dev s1)
          = ["Pico 20: I2C address not supported for device at address  0x20";
             "Pico 20: Pico Slave boot for I2C address 0x20";
             "Slave Version: 1.0"]%string.
Proof.
  intros b w.
  destruct (boot_with_unsupported_identity zero_MESSAGE b)
    as (Hcfg & Hboard & Hslave & _ & _ & s1 & Hrun & _ & Hout);
    [vm_compute; discriminate ..|].
  split; [reflexivity|]. split; [exact Hcfg|]. split; [exact Hboard|].
  split; [reflexivity|]. split; [exact Hslave|].
  exists s1. split; [exact Hrun | exact Hout].
Defined.

(** ** The queue invariant on the device *)

Section DeviceInvariant.
Context {hw : Type} {SDK : PicoSDK hw} {Config : UserConfig}.

Lemma log_queue_inv rec (w : device hw) :
  queue_inv (queue w) -> queue_inv (queue (log rec w)).
Proof. intros Hinv. apply enque_inv, Hinv. Qed.

Lemma write_command_queue_inv rec (w : device hw) :
  queue_inv (queue w) -> queue_inv (queue (write_command rec w)).
Proof.
  intros Hinv. unfold write_command.
  split_switch; try exact Hinv; apply log_queue_inv; exact Hinv.
Qed.

Lemma read_command_queue_inv rec (w : device hw) :
  queue_inv (queue w) -> queue_inv (queue (read_command rec w).2).
Proof.
  intros Hinv. unfold read_command.
  split_switch; try exact Hinv; apply log_queue_inv; exact Hinv.
Qed.

(** Every call of the handler and every change of the board keeps the
    counters of the queue in range, so each trace record the handler
    queues is stored inside the array. *)
Lemma occur_queue_inv o (w w' : device hw) :
  queue_inv (queue w) -> occur o w = Some w' -> queue_inv (queue w').
Proof.
  intros Hinv Hrun. destruct o as [rec [rx| |] | b]; cbn in Hrun.
  - destruct (reg_address_written (context w)); cbn in Hrun.
    + destruct (in_reg (reg_address (context w))); [|discriminate].
      injection Hrun as <-. apply write_command_queue_inv. exact Hinv.
    + injection Hrun as <-. exact Hinv.
  - destruct (in_reg (reg_address (context w))); [|discriminate].
    injection Hrun as <-. apply log_queue_inv.
    apply (read_command_queue_inv rec w Hinv).
  - injection Hrun as <-. exact Hinv.
  - injection Hrun as <-. exact Hinv.
Qed.

Lemma run_queue_inv os : forall w w' : device hw,
  queue_inv (queue w) -> run os w = Some w' -> queue_inv (queue w').
Proof.
  induction os as [|o os IH]; intros w w' Hinv Hrun; cbn in Hrun.
  - injection Hrun as <-. exact Hinv.
  - destruct (occur o w) as [w1|] eqn:Ho; [|discriminate].
    eapply IH; [eapply occur_queue_inv; eassumption | exact Hrun].
Qed.

End DeviceInvariant.

(** ** The end-to-end examples of the design document, on the reference
    board with identity 0x22 *)

(** Address 11 then data 5: pin 5 is driven high and one record is
    queued. *)
Example set_gpio_5 :
  let w := booted true false in
  let z := zero_MESSAGE in
  exists w',
    run [Irq z (I2C_SLAVE_RECEIVE 11); Irq z (I2C_SLAVE_RECEIVE 5)] w = Some w'
    /\ Z.testbit (Rp2040.gpio_out (board w)) 5 = false
    /\ Z.testbit (Rp2040.gpio_out (board w')) 5 = true
    /\ c_string <$> (data <$> contents (queue w'))
       = ["Cmd 11, Set Gpio: 05 "%string].
Proof. eexists. conjs; vm_compute; reflexivity. Qed.

(** Address 100 read after two rejected port commands: the byte returned
    has the [cmd] bit and no other. *)
Example status_after_rejections :
  let w := booted true false in
  let z := zero_MESSAGE in
  i2c0_tx <$> run (write_transaction z z z 80 255
                   ++ write_transaction z z z 90 255
                   ++ read_transaction z z z 100 true) w
  = Some [2].
Proof. vm_compute. reflexivity. Qed.

(** * Further properties *)

(** The invariant of a concrete queue, by evaluation. *)
Ltac inv_by_compute :=
  split; [split | split | split |]; vm_compute;
  first [reflexivity | discriminate].

(** ** The queue: order and overflow *)

Lemma fifo_run_app a b l :
  Fifo.run (a ++ b) l
  = ((Fifo.run a l).1 ++ (Fifo.run b (Fifo.run a l).2).1,
     (Fifo.run b (Fifo.run a l).2).2).
Proof.
  revert l. induction a as [|op a IH]; intros l; cbn [app Fifo.run].
  - cbn [fst snd app]. destruct (Fifo.run b l); reflexivity.
  - rewrite IH. reflexivity.
Qed.

Lemma fifo_run_enques ms : forall l,
  (length l <= 64)%nat ->
  Fifo.run (Enque <$> ms) l
  = (replicate (Nat.min (64 - length l) (length ms)) (Enqued true)
     ++ replicate (length ms - (64 - length l)) (Enqued false),
     take 64 (l ++ ms)).
Proof.
  induction ms as [|m ms IH]; intros l Hl.
  - cbn [fmap list_fmap Fifo.run length]. rewrite Nat.min_0_r, (app_nil_r l).
    cbn [replicate app]. rewrite take_ge by exact Hl. reflexivity.
  - cbn [fmap list_fmap Fifo.run Fifo.step]. fold (fmap (M:=list) Enque ms).
    unfold Fifo.enqueue, Fifo.capacity.
    destruct (Nat.ltb_spec (length l) 64) as [Hlt | Hge]; cbn [fst snd].
    + rewrite IH by (rewrite length_app; simpl; lia).
      rewrite length_app. cbn [length fst snd]. rewrite <- app_assoc. cbn [app].
      replace (Nat.min (64 - length l) (S (length ms)))
        with (S (Nat.min (64 - (length l + 1)) (length ms))) by lia.
      replace (S (length ms) - (64 - length l))%nat
        with (length ms - (64 - (length l + 1)))%nat by lia.
      reflexivity.
    + rewrite IH by exact Hl. cbn [length fst snd].
      replace (64 - length l)%nat with 0%nat by lia.
      rewrite !Nat.min_0_l, !Nat.sub_0_r. cbn [replicate app].
      rewrite !take_app_le by lia. reflexivity.
Qed.

Lemma fifo_run_deques n : forall l,
  (n <= length l)%nat ->
  Fifo.run (replicate n Deque) l
  = ((fun m => Dequed (Some m)) <$> take n l, drop n l).
Proof.
  induction n as [|n IH]; intros l Hn; [reflexivity|].
  destruct l as [|m l]; [simpl in Hn; lia|].
  cbn [replicate Fifo.run Fifo.step Fifo.dequeue fst snd].
  rewrite IH by (simpl in Hn; lia). reflexivity.
Qed.

Lemma wf_ops_enques ms :
  forallb wf_MESSAGE ms = true -> forallb wf_op (Enque <$> ms) = true.
Proof.
  induction ms as [|m ms IH]; [reflexivity|].
  cbn. intros [Hm Hms]%andb_true_iff. rewrite Hm. exact (IH Hms).
Qed.

Lemma wf_ops_deques n : forallb wf_op (replicate n Deque) = true.
Proof. induction n as [|n IH]; [reflexivity | exact IH]. Qed.

(** From an initialised queue, up to 64 records that are enqueued and then
    dequeued come out in the order they went in: every [enque] and every
    [deque] succeeds and the queue is empty afterwards. *)
Theorem queue_returns_records_in_order (q0 : queue_t) (ms : list MESSAGE) :
  wf_messages (messages q0) = true ->
  forallb wf_MESSAGE ms = true ->
  (length ms <= 64)%nat ->
  let r :=
    queue_run ((Enque <$> ms) ++ replicate (length ms) Deque)
      (init_queue q0) in
  r.1 = replicate (length ms) (Enqued true)
        ++ ((fun m => Dequed (Some m)) <$> ms)
  /\ contents r.2 = []
  /\ current_load r.2 = 0.
Proof.
  intros Hq0 Hms Hlen r.
  destruct (queue_run_refines ((Enque <$> ms) ++ replicate (length ms) Deque)
              (init_queue q0)) as (Hres & Hcont & _);
    [apply init_queue_inv | apply init_queue_slots, Hq0
    | rewrite forallb_app, wf_ops_enques, wf_ops_deques by exact Hms; reflexivity |].
  fold r in Hres, Hcont. rewrite init_queue_contents in Hres, Hcont.
  rewrite fifo_run_app, fifo_run_enques in Hres, Hcont by (simpl; lia).
  cbn [fst snd app length] in Hres, Hcont.
  rewrite take_ge in Hres, Hcont by lia.
  rewrite fifo_run_deques in Hres, Hcont by lia.
  cbn [fst snd] in Hres, Hcont.
  rewrite take_ge in Hres by lia. rewrite drop_ge in Hcont by lia.
  replace (Nat.min (64 - 0) (length ms)) with (length ms) in Hres by lia.
  replace (length ms - (64 - 0))%nat with 0%nat in Hres by lia.
  cbn [replicate] in Hres. rewrite app_nil_r in Hres.
  split; [exact Hres|]. split; [exact Hcont|].
  assert (Hinv : queue_inv r.2) by (unfold r; auto with queue).
  pose proof (contents_length r.2 (proj1 (inv_load _ Hinv))) as Hl.
  rewrite Hcont in Hl. simpl in Hl. lia.
Qed.

Lemma queue_returns_records_in_order_witness :
  let ms := [text_MESSAGE "one"; text_MESSAGE "two"; text_MESSAGE "three"] in
  wf_messages (messages used_queue) = true
  /\ forallb wf_MESSAGE ms = true
  /\ (length ms <= 64)%nat
  /\ (queue_run ((Enque <$> ms) ++ replicate (length ms) Deque)
        (init_queue used_queue)).1
     = replicate 3 (Enqued true) ++ ((fun m => Dequed (Some m)) <$> ms).
Proof.
  intros ms.
  assert (Hlen : (length ms <= 64)%nat) by (vm_compute; lia).
  split; [reflexivity|]. split; [reflexivity|]. split; [exact Hlen|].
  exact (proj1 (queue_returns_records_in_order used_queue ms eq_refl eq_refl Hlen)).
Defined.

(** From an initialised queue, of any number of records enqueued in a row
    the first 64 are stored and the later ones are refused: the queue
    holds the first 64 in order, nothing is overwritten. *)
Theorem queue_overflow_drops_newest (q0 : queue_t) (ms : list MESSAGE) :
  wf_messages (messages q0) = true ->
  forallb wf_MESSAGE ms = true ->
  let r := queue_run (Enque <$> ms) (init_queue q0) in
  r.1 = replicate (Nat.min 64 (length ms)) (Enqued true)
        ++ replicate (length ms - 64) (Enqued false)
  /\ contents r.2 = take 64 ms.
Proof.
  intros Hq0 Hms r.
  destruct (queue_run_refines (Enque <$> ms) (init_queue q0))
    as (Hres & Hcont & _);
    [apply init_queue_inv | apply init_queue_slots, Hq0
    | apply wf_ops_enques, Hms |].
  fold r in Hres, Hcont. rewrite init_queue_contents in Hres, Hcont.
  rewrite fifo_run_enques in Hres, Hcont by (simpl; lia).
  cbn [fst snd app length] in Hres, Hcont.
  rewrite Nat.sub_0_r in Hres. split; assumption.
Qed.

Lemma queue_overflow_drops_newest_witness :
  let ms := replicate 66 (text_MESSAGE "Cmd 60, Pad State: 1 ") in
  wf_messages (messages used_queue) = true
  /\ forallb wf_MESSAGE ms = true
  /\ (queue_run (Enque <$> ms) (init_queue used_queue)).1
     = replicate 64 (Enqued true) ++ replicate 2 (Enqued false)
  /\ length (contents (queue_run (Enque <$> ms) (init_queue used_queue)).2)
     = 64%nat.
Proof.
  intros ms. split; [reflexivity|]. split; [reflexivity|].
  destruct (queue_overflow_drops_newest used_queue ms eq_refl eq_refl)
    as [Hres Hcont].
  split; [exact Hres|]. rewrite Hcont. reflexivity.
Defined.

(** [init_queue] on any queue of 64 slots of 64 bytes: the three counters
    become 0, slots 0 to 3 become all zero and slots 4 to 63 keep what
    they held; the queue is empty afterwards all the same, since the
    counters say so. *)
Theorem init_queue_effect (q : queue_t) :
  wf_messages (messages q) = true ->
  begin (init_queue q) = 0
  /\ end_ (init_queue q) = 0
  /\ current_load (init_queue q) = 0
  /\ messages (init_queue q) = replicate 4 zero_MESSAGE ++ drop 4 (messages q)
  /\ contents (init_queue q) = []
  /\ deque (init_queue q) = (None, init_queue q).
Proof.
  intros Hq. conjs; try reflexivity. apply init_queue_messages, Hq.
Qed.

Lemma init_queue_effect_witness :
  wf_messages (messages full_queue) = true
  /\ messages (init_queue full_queue)
     = replicate 4 zero_MESSAGE
       ++ replicate 60 (text_MESSAGE "Cmd 60, Pad State: 1 ")
  /\ contents (init_queue full_queue) = [].
Proof.
  split; [vm_compute; reflexivity|].
  destruct (init_queue_effect full_queue) as (_ & _ & _ & Hm & Hc & _);
    [vm_compute; reflexivity|].
  split; [rewrite Hm; vm_compute; reflexivity | exact Hc].
Defined.

(** ** The handler: what it leaves alone *)

Section HandlerFrames.
Context {hw : Type} {SDK : PicoSDK hw} {Config : UserConfig}.

Lemma raise_cmd_twice s : raise_cmd (raise_cmd s) = raise_cmd s.
Proof. reflexivity. Qed.

Lemma write_command_frame rec (w : device hw) :
  (status (write_command rec w) = status w
   \/ status (write_command rec w) = raise_cmd (status w))
  /\ (is_port_pico w = true -> status (write_command rec w) = status w).
Proof.
  unfold write_command. destruct (is_port_pico w) eqn:Hid;
    split_switch; (split; [auto | intros Hp; first [reflexivity | discriminate Hp]]).
Qed.

Lemma read_command_frame rec (w : device hw) :
  reg_address (context (read_command rec w).2) = reg_address (context w)
  /\ reg_address_written (context (read_command rec w).2)
     = reg_address_written (context w)
  /\ reg_status (context (read_command rec w).2) = reg_status (context w)
  /\ i2c_add (context (read_command rec w).2) = i2c_add (context w)
  /\ length (reg (context (read_command rec w).2)) = length (reg (context w))
  /\ board (read_command rec w).2 = board w
  /\ i2c0_tx (read_command rec w).2 = i2c0_tx w
  /\ i2c0_slave (read_command rec w).2 = i2c0_slave w
  /\ stdout (read_command rec w).2 = stdout w
  /\ (status (read_command rec w).2 = status w
      \/ status (read_command rec w).2 = raise_cmd (status w)).
Proof.
  unfold read_command. destruct (reg_address (context w)) eqn:Ha;
    split_switch; conjs; try reflexivity; try exact Ha;
    try apply array_set_length; auto.
Qed.

Lemma handler_frame rec e (w w' : device hw) :
  i2c_slave_handler rec e w = Some w' ->
  i2c_add (context w') = i2c_add (context w)
  /\ reg_status (context w') = reg_status (context w)
  /\ length (reg (context w')) = length (reg (context w))
  /\ i2c0_slave w' = i2c0_slave w
  /\ stdout w' = stdout w
  /\ (status w' = status w \/ status w' = raise_cmd (status w)).
Proof.
  intros Hrun. destruct e as [rx| |]; cbn [i2c_slave_handler] in Hrun.
  - destruct (reg_address_written (context w)); cbn [negb] in Hrun.
    + destruct (in_reg (reg_address (context w))); [|discriminate].
      injection Hrun as <-.
      rewrite write_command_context.
      destruct (write_command_i2c rec (store rx w)) as (_ & -> & ->).
      destruct (write_command_frame rec (store rx w)) as [Hs _].
      conjs; try reflexivity; [apply array_set_length | exact Hs].
    + injection Hrun as <-. conjs; auto.
  - destruct (in_reg (reg_address (context w))); [|discriminate].
    injection Hrun as <-.
    destruct (read_command_frame rec w)
      as (_ & _ & Hst & Hid & Hlen & _ & _ & Hsl & Hout & Hs).
    conjs; assumption.
  - injection Hrun as <-. conjs; auto.
Qed.



(** Only a request puts a byte on the bus, and exactly one: the content
    of the selected cell as the call leaves it. A received byte and a
    finished transaction send nothing. *)
Theorem only_request_sends rec e (w w' : device hw) :
  i2c_slave_handler rec e w = Some w' ->
  i2c0_tx w'
  = match e with
    | I2C_SLAVE_REQUEST => cur w' :: i2c0_tx w
    | _ => i2c0_tx w
    end.
Proof.
  intros Hrun. destruct e as [rx| |]; cbn [i2c_slave_handler] in Hrun.
  - destruct (reg_address_written (context w)); cbn [negb] in Hrun.
    + destruct (in_reg (reg_address (context w))); [|discriminate].
      injection Hrun as <-.
      destruct (write_command_i2c rec (store rx w)) as (-> & _). reflexivity.
    + injection Hrun as <-. reflexivity.
  - destruct (in_reg (reg_address (context w))); [|discriminate].
    injection Hrun as <-.
    destruct (read_command_frame rec w) as (_ & _ & _ & _ & _ & _ & Htx & _).
    cbn. rewrite Htx. reflexivity.
  - injection Hrun as <-. reflexivity.
Qed.

(** A request, a finished transaction and an address byte leave the board
    as it is: only a data byte can change a pin or a pad. *)
Theorem board_changes_only_on_data rec e (w w' : device hw) :
  i2c_slave_handler rec e w = Some w' ->
  match e with
  | I2C_SLAVE_RECEIVE _ => reg_address_written (context w) = false
  | _ => True
  end ->
  board w' = board w.
Proof.
  intros Hrun He. destruct e as [rx| |]; cbn [i2c_slave_handler] in Hrun.
  - rewrite He in Hrun. injection Hrun as <-. reflexivity.
  - destruct (in_reg (reg_address (context w))); [|discriminate].
    injection Hrun as <-.
    destruct (read_command_frame rec w) as (_ & _ & _ & _ & _ & Hb & _).
    exact Hb.
  - injection Hrun as <-. reflexivity.
Qed.

End HandlerFrames.



Lemma only_request_sends_witness :
  let w := addressed true false 60 in
  exists w',
    i2c_slave_handler zero_MESSAGE I2C_SLAVE_REQUEST w = Some w'
    /\ i2c0_tx w' = cur w' :: i2c0_tx w.
Proof.
  intros w. eexists. split; [vm_compute; reflexivity|].
  apply (only_request_sends zero_MESSAGE I2C_SLAVE_REQUEST w).
  vm_compute; reflexivity.
Defined.

Lemma board_changes_only_on_data_witness :
  let w := addressed false true 15 in
  exists w',
    i2c_slave_handler zero_MESSAGE I2C_SLAVE_REQUEST w = Some w'
    /\ board w' = board w.
Proof.
  intros w. eexists. split; [vm_compute; reflexivity|].
  apply (board_changes_only_on_data zero_MESSAGE I2C_SLAVE_REQUEST w);
    [vm_compute; reflexivity | exact I].
Defined.


(** ** The handler and the queue *)

Section HandlerQueue.
Context {hw : Type} {SDK : PicoSDK hw} {Config : UserConfig}.

Lemma queue_grows_refl q :
  queue_inv q -> length (messages q) = Z.to_nat QUEUE_SIZE ->
  queue_grows 0 q q.
Proof.
  intros Hinv Hlen. split; [|split; assumption].
  exists []. rewrite app_nil_r. split; [reflexivity | simpl; lia].
Qed.

Lemma queue_grows_trans n m q1 q2 q3 :
  queue_grows n q1 q2 -> queue_grows m q2 q3 -> queue_grows (n + m) q1 q3.
Proof.
  intros [(new1 & H1 & Hn) _] [(new2 & H2 & Hm) Hok]. split; [|exact Hok].
  exists (new1 ++ new2). rewrite H2, H1, <- app_assoc.
  split; [reflexivity | rewrite length_app; lia].
Qed.

Lemma queue_grows_le n m q q' :
  (n <= m)%nat -> queue_grows n q q' -> queue_grows m q q'.
Proof.
  intros Hle [(new & H & Hn) Hok]. split; [|exact Hok].
  exists new. split; [exact H | lia].
Qed.

Lemma queue_grows_log rec (w : device hw) q :
  queue w = q ->
  queue_inv q -> length (messages q) = Z.to_nat QUEUE_SIZE ->
  queue_grows 1 q (queue (log rec w)).
Proof.
  intros <- Hinv Hlen. cbn [log queue with_queue].
  split; [|split; [apply enque_inv, Hinv|]].
  - destruct (Z.ltb_spec (current_load (queue w)) QUEUE_SIZE) as [Hlt | Hge].
    + destruct (enque_contents rec (queue w) Hinv Hlen Hlt) as [_ Hc].
      exists [rec]. split; [exact Hc | simpl; lia].
    + exists []. unfold enque.
      destruct (Z.ltb_spec (current_load (queue w)) QUEUE_SIZE); [lia|].
      rewrite app_nil_r. split; [reflexivity | simpl; lia].
  - change (enque rec (queue w)).2 with (queue_step (Enque rec) (queue w)).2.
    rewrite queue_step_length. exact Hlen.
Qed.

Lemma write_command_grows rec (w : device hw) :
  queue_inv (queue w) -> length (messages (queue w)) = Z.to_nat QUEUE_SIZE ->
  queue_grows 1 (queue w) (queue (write_command rec w)).
Proof.
  intros Hinv Hlen. unfold write_command.
  split_switch;
    first [ apply queue_grows_log; [reflexivity | assumption | assumption]
          | apply (queue_grows_le 0 1); [lia | apply queue_grows_refl; assumption] ].
Qed.

Lemma read_command_grows rec (w : device hw) :
  queue_inv (queue w) -> length (messages (queue w)) = Z.to_nat QUEUE_SIZE ->
  queue_grows 1 (queue w) (queue (read_command rec w).2).
Proof.
  intros Hinv Hlen. unfold read_command.
  split_switch;
    first [ apply queue_grows_log; [reflexivity | assumption | assumption]
          | apply (queue_grows_log _ _ (queue w) eq_refl Hinv Hlen)
          | apply (queue_grows_le 0 1); [lia | apply queue_grows_refl; assumption] ].
Qed.

(** A call of the handler only adds to the queue: the records queued
    before are still there in the same order, followed by at most one new
    record for a received byte, at most two for a request and none for a
    finished transaction; the counters stay in range. *)
Theorem handler_appends_records rec e (w w' : device hw) :
  queue_inv (queue w) ->
  length (messages (queue w)) = Z.to_nat QUEUE_SIZE ->
  i2c_slave_handler rec e w = Some w' ->
  (exists new,
     contents (queue w') = contents (queue w) ++ new
     /\ (length new <= records_of e)%nat)
  /\ queue_inv (queue w')
  /\ length (messages (queue w')) = Z.to_nat QUEUE_SIZE.
Proof.
  intros Hinv Hlen Hrun. change (queue_grows (records_of e) (queue w) (queue w')).
  destruct e as [rx| |]; cbn [i2c_slave_handler] in Hrun; cbn [records_of].
  - destruct (reg_address_written (context w)); cbn [negb] in Hrun.
    + destruct (in_reg (reg_address (context w))); [|discriminate].
      injection Hrun as <-.
      apply (write_command_grows rec (store rx w)); assumption.
    + injection Hrun as <-. apply (queue_grows_le 0 1); [lia|].
      apply queue_grows_refl; assumption.
  - destruct (in_reg (reg_address (context w))); [|discriminate].
    injection Hrun as <-.
    pose proof (read_command_grows rec w Hinv Hlen) as H1.
    apply (queue_grows_trans 1 1 _ _ _ H1).
    destruct H1 as (_ & Hinv1 & Hlen1).
    apply queue_grows_log; [reflexivity | assumption | assumption].
  - injection Hrun as <-. apply queue_grows_refl; assumption.
Qed.

End HandlerQueue.

Lemma handler_appends_records_witness :
  let w := addressed true false 85 in
  queue_inv (queue w)
  /\ length (messages (queue w)) = Z.to_nat QUEUE_SIZE
  /\ exists w' new,
       i2c_slave_handler zero_MESSAGE I2C_SLAVE_REQUEST w = Some w'
       /\ contents (queue w') = contents (queue w) ++ new
       /\ (length new <= 2)%nat.
Proof.
  intros w.
  assert (Hinv : queue_inv (queue w)) by inv_by_compute.
  split; [exact Hinv|]. split; [reflexivity|].
  destruct (i2c_slave_handler zero_MESSAGE I2C_SLAVE_REQUEST w) as [w'|] eqn:Hrun;
    [|vm_compute in Hrun; discriminate].
  destruct (handler_appends_records zero_MESSAGE I2C_SLAVE_REQUEST w w'
              Hinv eq_refl Hrun) as ((new & Hc & Hn) & _).
  exists w', new. split; [reflexivity|]. split; assumption.
Defined.

(** ** The handler: single commands *)

Lemma to_u8_byte x : byte (to_u8 x).
Proof. unfold byte, to_u8. apply Z.mod_pos_bound. lia. Qed.

Lemma to_u8_of_byte x : byte x -> to_u8 x = x.
Proof. unfold byte, to_u8. intros H. apply Z.mod_small. exact H. Qed.

Lemma b2z_byte t : byte (Z.b2z t).
Proof. unfold byte. destruct t; simpl; lia. Qed.

(** A property of bytes that holds for the 256 of them. *)
Lemma byte_cases (P : Z -> bool) :
  forallb P (Z.of_nat <$> seq 0 256) = true -> forall v, byte v -> P v = true.
Proof.
  intros Hall v Hv. rewrite forallb_forall in Hall. apply Hall.
  apply list_elem_of_In, list_elem_of_fmap. exists (Z.to_nat v).
  split; [unfold byte in Hv; lia|].
  apply elem_of_seq. unfold byte in Hv. lia.
Qed.

Lemma all_flags_bits s :
  byte (all_flags s)
  /\ Z.testbit (all_flags s) 0 = cfg s
  /\ Z.testbit (all_flags s) 1 = cmd s
  /\ Z.testbit (all_flags s) 2 = error s
  /\ Z.testbit (all_flags s) 3 = watch s.
Proof.
  destruct s as [[] [] [] [] [] [] [] []]; unfold byte;
    conjs; vm_compute; first [reflexivity | discriminate].
Qed.

Section Commands.
Context {hw : Type} {SDK : PicoSDK hw} {Config : UserConfig}.

Lemma cur_store v (w : device hw) :
  0 <= reg_address (context w) < REG_COUNT ->
  length (reg (context w)) = Z.to_nat REG_COUNT ->
  cur (store v w) = to_u8 v.
Proof.
  intros Ha Hlen. unfold cur, store. cbn.
  apply array_get_set_eq. unfold REG_COUNT in *. lia.
Qed.

(** A request at an address that is no read-phase command sends the cell
    as it is and changes nothing but the queue, which is given the one
    record that logs the value. *)
Theorem unmatched_read_returns_cell rec (w : device hw) :
  0 <= reg_address (context w) < REG_COUNT ->
  read_phase_command (reg_address (context w)) = false ->
  exists w',
    i2c_slave_handler rec I2C_SLAVE_REQUEST w = Some w'
    /\ i2c0_tx w' = cur w :: i2c0_tx w
    /\ context w' = context w
    /\ board w' = board w
    /\ status w' = status w
    /\ queue w'
       = (enque (sprintf rec "Read Cmd : %02d , Value: %02d "
                   [reg_address (context w); cur w]) (queue w)).2.
Proof.
  intros Ha Hcmd. cbn [i2c_slave_handler].
  apply in_reg_spec in Ha. rewrite Ha, read_command_unmatched by exact Hcmd.
  eexists. split; [reflexivity|]. conjs; reflexivity.
Qed.

(** A request at address 1 or 2 sends the major or minor version number
    of userconfig.h as a byte, whatever the cell held, and leaves that
    byte in the cell; flags and board are as before. *)
Theorem version_read rec (w : device hw) :
  length (reg (context w)) = Z.to_nat REG_COUNT ->
  reg_address (context w) = 1 \/ reg_address (context w) = 2 ->
  exists w',
    i2c_slave_handler rec I2C_SLAVE_REQUEST w = Some w'
    /\ i2c0_tx w'
       = to_u8 (if reg_address (context w) =? 1 then IO_SLAVE_VERSION_MAJOR
                else IO_SLAVE_VERSION_MINOR) :: i2c0_tx w
    /\ hd_error (i2c0_tx w') = Some (cur w')
    /\ status w' = status w
    /\ board w' = board w.
Proof.
  intros Hlen Ha. cbn [i2c_slave_handler].
  assert (Hin : 0 <= reg_address (context w) < REG_COUNT)
    by (unfold REG_COUNT; lia).
  pose proof (cur_store IO_SLAVE_VERSION_MAJOR w Hin Hlen) as Hmaj.
  pose proof (cur_store IO_SLAVE_VERSION_MINOR w Hin Hlen) as Hmin.
  apply in_reg_spec in Hin. rewrite Hin. unfold read_command.
  destruct Ha as [Ha | Ha]; rewrite Ha; cbv beta iota zeta;
    (eexists; split; [reflexivity|]); cbn [Z.eqb Pos.eqb];
    change (cur (log ?r ?x)) with (cur x);
    change (cur (i2c_write_byte ?b ?x)) with (cur x);
    conjs; try reflexivity.
  - cbn. f_equal. exact Hmaj.
  - cbn. f_equal. exact Hmin.
Qed.

(** A request at address 100 sends the status flags as one byte, bit 0
    for [cfg], bit 1 for [cmd], bit 2 for [error] and bit 3 for [watch],
    and does not change them. *)
Theorem status_read rec (w : device hw) :
  length (reg (context w)) = Z.to_nat REG_COUNT ->
  reg_address (context w) = REG_STATUS ->
  exists w' sent,
    i2c_slave_handler rec I2C_SLAVE_REQUEST w = Some w'
    /\ i2c0_tx w' = sent :: i2c0_tx w
    /\ sent = all_flags (status w)
    /\ Z.testbit sent 0 = cfg (status w)
    /\ Z.testbit sent 1 = cmd (status w)
    /\ Z.testbit sent 2 = error (status w)
    /\ Z.testbit sent 3 = watch (status w)
    /\ status w' = status w
    /\ board w' = board w.
Proof.
  intros Hlen Ha. cbn [i2c_slave_handler]. unfold REG_STATUS in Ha.
  destruct (all_flags_bits (status w)) as (Hb & H0 & H1 & H2 & H3).
  assert (Hin : in_reg (reg_address (context w)) = true)
    by (rewrite Ha; reflexivity).
  rewrite Hin. unfold read_command. rewrite Ha. cbv beta iota zeta.
  eexists. exists (all_flags (status w)).
  split; [reflexivity|]. conjs; try assumption; try reflexivity.
  cbn [i2c0_tx log with_queue i2c_write_byte with_i2c0_tx with_context snd].
  f_equal. unfold cur.
  cbn [context with_context with_queue log set_reg reg reg_address].
  rewrite Ha. change REG_STATUS with 100.
  rewrite array_get_set_eq by (unfold REG_COUNT in *; lia).
  apply to_u8_of_byte, Hb.
Qed.

End Commands.

Lemma unmatched_read_returns_cell_witness :
  let w := addressed true false 11 in
  0 <= reg_address (context w) < REG_COUNT
  /\ read_phase_command (reg_address (context w)) = false
  /\ exists w',
       i2c_slave_handler zero_MESSAGE I2C_SLAVE_REQUEST w = Some w'
       /\ i2c0_tx w' = cur w :: i2c0_tx w
       /\ context w' = context w.
Proof.
  intros w.
  assert (Ha : 0 <= reg_address (context w) < REG_COUNT)
    by (split; [vm_compute; discriminate | vm_compute; reflexivity]).
  split; [exact Ha|]. split; [reflexivity|].
  destruct (unmatched_read_returns_cell zero_MESSAGE w Ha eq_refl)
    as (w' & Hrun & Htx & Hc & _).
  exists w'. conjs; assumption.
Defined.

Lemma version_read_witness :
  let w := addressed true false 1 in
  length (reg (context w)) = Z.to_nat REG_COUNT
  /\ reg_address (context w) = 1
  /\ exists w',
       i2c_slave_handler zero_MESSAGE I2C_SLAVE_REQUEST w = Some w'
       /\ i2c0_tx w' = [1].
Proof.
  intros w. split; [reflexivity|]. split; [reflexivity|].
  destruct (version_read zero_MESSAGE w eq_refl (or_introl eq_refl))
    as (w' & Hrun & Htx & _).
  exists w'. split; [exact Hrun | exact Htx].
Defined.

Lemma status_read_witness :
  let w := addressed false false 100 in
  length (reg (context w)) = Z.to_nat REG_COUNT
  /\ reg_address (context w) = REG_STATUS
  /\ exists w',
       i2c_slave_handler zero_MESSAGE I2C_SLAVE_REQUEST w = Some w'
       /\ i2c0_tx w' = [1].
Proof.
  intros w. split; [reflexivity|]. split; [reflexivity|].
  destruct (status_read zero_MESSAGE w eq_refl eq_refl)
    as (w' & sent & Hrun & Htx & -> & _).
  exists w'. split; [exact Hrun | exact Htx].
Defined.

Section Getters.
Context {hw : Type} {SDK : PicoSDK hw} {Config : UserConfig}.

Lemma hardware_getter_cases a :
  hardware_getter a = true ->
  a = 13 \/ a = 15 \/ a = 25 \/ a = 35 \/ a = 45 \/ a = 55 \/ a = 65.
Proof.
  unfold hardware_getter. split_switch; intros Hg; try discriminate Hg; lia.
Qed.

Lemma getter_value_byte a v (b : hw) :
  hardware_getter a = true -> byte (getter_value a v b).
Proof.
  intros Hg. destruct (hardware_getter_cases a Hg)
    as [-> | [-> | [-> | [-> | [-> | [-> | ->]]]]]]; cbn [getter_value];
    try apply b2z_byte; try apply to_u8_byte.
  destruct (v <? 10); apply to_u8_byte.
Qed.

Lemma cur_log rec (w : device hw) : cur (log rec w) = cur w.
Proof. reflexivity. Qed.

Lemma cur_i2c_write_byte b (w : device hw) : cur (i2c_write_byte b w) = cur w.
Proof. reflexivity. Qed.

Lemma cur_store_log v rec (w : device hw) :
  cur (store v (log rec w)) = cur (store v w).
Proof. reflexivity. Qed.

Lemma getter_request rec (w : device hw) :
  length (reg (context w)) = Z.to_nat REG_COUNT ->
  hardware_getter (reg_address (context w)) = true ->
  exists w',
    i2c_slave_handler rec I2C_SLAVE_REQUEST w = Some w'
    /\ i2c0_tx w'
       = getter_value (reg_address (context w)) (cur w) (board w) :: i2c0_tx w
    /\ cur w' = getter_value (reg_address (context w)) (cur w) (board w)
    /\ board w' = board w
    /\ reg_address (context w') = reg_address (context w)
    /\ length (reg (context w')) = Z.to_nat REG_COUNT.
Proof.
  intros Hlen Hg.
  pose proof (getter_value_byte _ (cur w) (board w) Hg) as Hbyte.
  apply to_u8_of_byte in Hbyte.
  assert (Hin : 0 <= reg_address (context w) < REG_COUNT)
    by (unfold REG_COUNT; destruct (hardware_getter_cases _ Hg)
          as [-> | [-> | [-> | [-> | [-> | [-> | ->]]]]]]; lia).
  pose proof (fun v => cur_store v w Hin Hlen) as Hcur.
  apply in_reg_spec in Hin. cbn [i2c_slave_handler]. rewrite Hin.
  unfold read_command.
  destruct (hardware_getter_cases _ Hg)
    as [Ha | [Ha | [Ha | [Ha | [Ha | [Ha | Ha]]]]]];
    rewrite Ha in Hbyte |- *; cbv beta iota zeta;
    (eexists; split; [reflexivity|]);
    cbn [getter_value] in Hbyte |- *;
    cbn [i2c0_tx with_i2c0_tx i2c_write_byte fst snd];
    rewrite ?cur_log, ?cur_i2c_write_byte, ?cur_store_log, ?Hcur;
    try rewrite Hbyte;
    cbn [i2c0_tx log with_queue i2c_write_byte with_i2c0_tx store with_context
         snd board context set_reg reg reg_address];
    (conjs; [reflexivity | reflexivity | reflexivity | exact Ha
            | rewrite array_set_length; exact Hlen]).
Qed.

(** A request at one of the hardware getters (13, 15, 25, 35, 45, 55, 65)
    sends what the command reads for the pin the cell selects and leaves
    that result in the cell, so a second request without a new data byte
    reads for the pin whose number is the first result, not for the pin
    selected before. *)
Theorem getter_overwrites_its_selector rec1 rec2 (w : device hw) :
  length (reg (context w)) = Z.to_nat REG_COUNT ->
  hardware_getter (reg_address (context w)) = true ->
  let a := reg_address (context w) in
  let first := getter_value a (cur w) (board w) in
  let second := getter_value a first (board w) in
  exists w',
    run [Irq rec1 I2C_SLAVE_REQUEST; Irq rec2 I2C_SLAVE_REQUEST] w = Some w'
    /\ i2c0_tx w' = second :: first :: i2c0_tx w
    /\ cur w' = second.
Proof.
  intros Hlen Hg a first second.
  destruct (getter_request rec1 w Hlen Hg)
    as (w1 & Hrun1 & Htx1 & Hcur1 & Hb1 & Ha1 & Hlen1).
  assert (Hg1 : hardware_getter (reg_address (context w1)) = true)
    by (rewrite Ha1; exact Hg).
  destruct (getter_request rec2 w1 Hlen1 Hg1)
    as (w2 & Hrun2 & Htx2 & Hcur2 & _).
  exists w2. cbn [run occur]. rewrite Hrun1, Hrun2.
  rewrite Htx2, Hcur2, Htx1, Hcur1, Hb1, Ha1. conjs; reflexivity.
Qed.

End Getters.

Lemma getter_overwrites_its_selector_witness :
  let w :=
    with_context (addressed false true 15)
      (set_reg (context (addressed false true 15)) 15 26) in
  length (reg (context w)) = Z.to_nat REG_COUNT
  /\ hardware_getter (reg_address (context w)) = true
  /\ gpio_get 26 (board w) = true
  /\ gpio_get 1 (board w) = false
  /\ exists w',
       run [Irq zero_MESSAGE I2C_SLAVE_REQUEST;
            Irq zero_MESSAGE I2C_SLAVE_REQUEST] w = Some w'
       /\ i2c0_tx w' = [0; 1].
Proof.
  intros w. do 4 (split; [reflexivity|]).
  destruct (getter_overwrites_its_selector zero_MESSAGE zero_MESSAGE w
              eq_refl eq_refl) as (w' & Hrun & Htx & _).
  exists w'. split; [exact Hrun | exact Htx].
Defined.

Section WriteCommands.
Context {hw : Type} {SDK : PicoSDK hw} {Config : UserConfig}.

(** The device an address byte leaves. *)
Lemma run_write_transaction rec1 rec2 rec3 a v (w : device hw) :
  reg_address_written (context w) = false ->
  0 <= a < REG_COUNT ->
  let selected :=
    with_context w
      (set_reg_address_written (set_reg_address (context w) a) true) in
  let done := write_command rec2 (store v selected) in
  run (write_transaction rec1 rec2 rec3 a v) w
  = Some (with_context done (set_reg_address_written (context done) false)).
Proof.
  intros Hidle Ha selected done.
  assert (Hua : to_u8 a = a)
    by (apply to_u8_of_byte; unfold byte, REG_COUNT in *; lia).
  unfold write_transaction.
  rewrite run_cons. cbn [occur]. rewrite receive_address by exact Hidle.
  rewrite Hua. fold selected.
  rewrite run_cons. cbn [occur].
  rewrite (receive_data rec2 v selected) by (first [reflexivity | exact Ha]).
  fold done. rewrite run_cons. cbn [occur]. rewrite finish_event.
  reflexivity.
Qed.

Lemma pad_state_kept rec (w : device hw) :
  reg_address (context w) = 60 ->
  board (write_command rec w) = board w
  /\ status (write_command rec w) = status w.
Proof.
  intros Ha. unfold write_command. rewrite Ha. cbv beta iota zeta.
  split; reflexivity.
Qed.

Lemma pad_state_applied rec (w : device hw) :
  reg_address (context w) = 61 ->
  board (write_command rec w)
  = pads_write_masked (cur w) (array_get 0 (reg (context w)) 60) 0xff (board w)
  /\ status (write_command rec w) = status w.
Proof.
  intros Ha. unfold write_command. rewrite Ha. cbv beta iota zeta.
  split; reflexivity.
Qed.

(** The pad state is set in two transactions: a byte written to address
    60 is only kept, and a pin number written to address 61 afterwards
    applies the kept byte to the pad of that pin, under the mask 0xff.
    No flag changes. *)
Theorem pad_state_prepare_then_apply rec1 rec2 rec3 rec4 rec5 rec6 state pin
    (w : device hw) :
  reg_address_written (context w) = false ->
  length (reg (context w)) = Z.to_nat REG_COUNT ->
  byte state -> byte pin ->
  exists w1 w2,
    run (write_transaction rec1 rec2 rec3 60 state) w = Some w1
    /\ board w1 = board w
    /\ run (write_transaction rec4 rec5 rec6 61 pin) w1 = Some w2
    /\ board w2 = pads_write_masked pin state 0xff (board w)
    /\ status w2 = status w.
Proof.
  intros Hidle Hlen Hs Hp.
  apply to_u8_of_byte in Hs, Hp.
  rewrite run_write_transaction by (first [exact Hidle | unfold REG_COUNT; lia]).
  cbv zeta.
  set (s1 := store state _).
  destruct (pad_state_kept rec2 s1 eq_refl) as [Hb1 Hst1].
  pose proof (write_command_context rec2 s1) as Hc1.
  set (w1 := with_context (write_command rec2 s1) _).
  exists w1. eexists. split; [reflexivity|].
  split; [exact Hb1|].
  rewrite run_write_transaction by (first [reflexivity | unfold REG_COUNT; lia]).
  cbv zeta. split; [reflexivity|].
  set (s2 := store pin _).
  destruct (pad_state_applied rec5 s2 eq_refl) as [Hb2 Hst2].
  assert (Hreg : reg (context s2)
                 = array_set (array_set (reg (context w)) 60 state) 61 pin).
  { unfold s2, w1. cbn [store context with_context set_reg reg reg_address
      set_reg_address set_reg_address_written]. rewrite Hc1. unfold s1.
    cbn [store context with_context set_reg reg reg_address
      set_reg_address set_reg_address_written]. rewrite Hs, Hp. reflexivity. }
  assert (Hcur : cur s2 = pin).
  { unfold cur. rewrite Hreg. change (reg_address (context s2)) with 61.
    apply array_get_set_eq.
    rewrite array_set_length, Hlen. unfold REG_COUNT. lia. }
  cbn [board status with_context]. rewrite Hb2, Hst2, Hcur, Hreg.
  rewrite array_get_set_ne by lia.
  rewrite array_get_set_eq by (rewrite Hlen; unfold REG_COUNT; lia).
  split; [f_equal; exact Hb1 | exact Hst1].
Qed.

Lemma port_accepted rec (w : device hw) :
  is_port_pico w = true ->
  (reg_address (context w) = 80 \/ reg_address (context w) = 81
   \/ reg_address (context w) = 90 \/ reg_address (context w) = 91) ->
  board (write_command rec w)
  = port_action (reg_address (context w)) (cur w) (board w)
  /\ status (write_command rec w) = status w.
Proof.
  intros Hport Ha. unfold write_command.
  destruct Ha as [Ha | [Ha | [Ha | Ha]]]; rewrite Ha; cbv beta iota zeta;
    rewrite Hport; split; reflexivity.
Qed.

(** On the port Pico (identity 0x21) the four port-wide write commands
    are carried out: the data byte is the mask given to the SDK call of
    the command, shifted by 10 for port 1, the shifted byte lies inside
    the mask of the port, and no status flag changes. *)
Theorem port_commands_on_port_pico rec v (w : device hw) :
  reg_address_written (context w) = true ->
  length (reg (context w)) = Z.to_nat REG_COUNT ->
  i2c_add (context w) = PICO_PORT_ADDRESS ->
  byte v ->
  (reg_address (context w) = 80 \/ reg_address (context w) = 81
   \/ reg_address (context w) = 90 \/ reg_address (context w) = 91) ->
  exists w',
    i2c_slave_handler rec (I2C_SLAVE_RECEIVE v) w = Some w'
    /\ board w' = port_action (reg_address (context w)) v (board w)
    /\ status w' = status w
    /\ cur w' = v
    /\ Z.land v PORT0_MASK = v
    /\ Z.land (Z.shiftl v PORT1_OFFSET) PORT1_MASK = Z.shiftl v PORT1_OFFSET.
Proof.
  intros Hset Hlen Hid Hv Ha.
  assert (Hin : 0 <= reg_address (context w) < REG_COUNT)
    by (unfold REG_COUNT; lia).
  rewrite receive_data by assumption.
  pose proof (cur_store v w Hin Hlen) as Hcur.
  rewrite (to_u8_of_byte v Hv) in Hcur.
  assert (Hport : is_port_pico (store v w) = true)
    by (unfold is_port_pico; cbn; rewrite Hid; reflexivity).
  destruct (port_accepted rec (store v w) Hport Ha) as [Hb Hs].
  rewrite Hcur in Hb.
  pose proof (byte_cases
    (fun v => (Z.land v PORT0_MASK =? v)
              && (Z.land (Z.shiftl v PORT1_OFFSET) PORT1_MASK
                  =? Z.shiftl v PORT1_OFFSET)) eq_refl v Hv) as Hmask.
  apply andb_true_iff in Hmask as [H0%Z.eqb_eq H1%Z.eqb_eq].
  eexists. split; [reflexivity|].
  conjs; try assumption.
  unfold cur. rewrite write_command_context. exact Hcur.
Qed.

(** On any other identity the port-wide write commands 80, 81 and 90 are
    refused: the byte is stored, the board is not touched, the rejection
    text is given to [enque] and [status.cmd] is raised. *)
Theorem port_writes_refused rec v (w : device hw) :
  reg_address_written (context w) = true ->
  (reg_address (context w) = 80 \/ reg_address (context w) = 81
   \/ reg_address (context w) = 90) ->
  i2c_add (context w) <> PICO_PORT_ADDRESS ->
  exists w',
    i2c_slave_handler rec (I2C_SLAVE_RECEIVE v) w = Some w'
    /\ board w' = board w
    /\ cmd (status w') = true
    /\ status w' = raise_cmd (status w)
    /\ context w' = context (store v w)
    /\ queue w' = (enque (not_valid rec w) (queue w)).2.
Proof.
  intros Hset Ha Hid.
  assert (Hport : is_port_pico w = false)
    by (unfold is_port_pico; apply Z.eqb_neq, Hid).
  destruct (port_write_rejected rec v w Hset) as (w' & Hrun & Hb & Hq & Hc & Hs);
    [tauto | exact Hport |].
  exists w'.
  assert (Hne : (reg_address (context w) =? 91) = false)
    by (apply Z.eqb_neq; lia).
  rewrite Hne in Hs. rewrite Hs. conjs; try assumption; reflexivity.
Qed.

(** On any other identity the port-wide read commands 85 and 95 are
    refused: the cell is sent as it is, the board is only read, the
    rejection text and the record of the value are given to [enque] and
    [status.cmd] is raised. *)
Theorem port_reads_refused rec (w : device hw) :
  (reg_address (context w) = 85 \/ reg_address (context w) = 95) ->
  i2c_add (context w) <> PICO_PORT_ADDRESS ->
  exists w',
    i2c_slave_handler rec I2C_SLAVE_REQUEST w = Some w'
    /\ board w' = board w
    /\ context w' = context w
    /\ cmd (status w') = true
    /\ i2c0_tx w' = cur w :: i2c0_tx w.
Proof.
  intros Ha Hid.
  assert (Hport : is_port_pico w = false)
    by (unfold is_port_pico; apply Z.eqb_neq, Hid).
  destruct (port_read_rejected rec w Ha Hport)
    as (w' & Hrun & Hb & Hc & Hs & Htx & _).
  exists w'. conjs; assumption.
Qed.

(** After a finished transaction the next byte received is an address
    byte, whatever came before: it selects the address and writes no
    cell, raises no flag, queues nothing and touches no pin. *)
Theorem finish_then_receive_selects rec1 rec2 a (w : device hw) :
  exists w',
    run [Irq rec1 I2C_SLAVE_FINISH; Irq rec2 (I2C_SLAVE_RECEIVE a)] w
    = Some w'
    /\ reg_address (context w') = to_u8 a
    /\ reg_address_written (context w') = true
    /\ reg (context w') = reg (context w)
    /\ status w' = status w
    /\ queue w' = queue w
    /\ board w' = board w
    /\ i2c0_tx w' = i2c0_tx w.
Proof. eexists. split; [reflexivity|]. conjs; reflexivity. Qed.

End WriteCommands.

Lemma pad_state_prepare_then_apply_witness :
  let z := zero_MESSAGE in
  let w := booted true false in
  reg_address_written (context w) = false
  /\ length (reg (context w)) = Z.to_nat REG_COUNT
  /\ exists w1 w2,
       run (write_transaction z z z 60 0x5a) w = Some w1
       /\ run (write_transaction z z z 61 3) w1 = Some w2
       /\ pads_io 3 (board w) = 0x56
       /\ pads_io 3 (board w2) = 0x5a.
Proof.
  intros z w. split; [reflexivity|]. split; [reflexivity|].
  destruct (pad_state_prepare_then_apply z z z z z z 0x5a 3 w eq_refl eq_refl)
    as (w1 & w2 & H1 & _ & H2 & Hb & _); [unfold byte; lia ..|].
  exists w1, w2. split; [exact H1|]. split; [exact H2|].
  split; [reflexivity|]. rewrite Hb. reflexivity.
Defined.

Lemma port_commands_on_port_pico_witness :
  let w := addressed false true 90 in
  reg_address_written (context w) = true
  /\ i2c_add (context w) = PICO_PORT_ADDRESS
  /\ exists w',
       i2c_slave_handler zero_MESSAGE (I2C_SLAVE_RECEIVE 3) w = Some w'
       /\ Rp2040.gpio_oe (board w) = Z.shiftl 1 25 + Z.shiftl 1 28
       /\ Rp2040.gpio_oe (board w')
          = Z.shiftl 1 25 + Z.shiftl 1 28 + Z.shiftl 3 10
       /\ status w' = status w.
Proof.
  intros w. split; [reflexivity|]. split; [reflexivity|].
  destruct (port_commands_on_port_pico zero_MESSAGE 3 w eq_refl eq_refl eq_refl)
    as (w' & Hrun & Hb & Hs & _); [unfold byte; lia | right; right; left; reflexivity |].
  exists w'. split; [exact Hrun|]. split; [reflexivity|].
  split; [rewrite Hb; reflexivity | exact Hs].
Defined.

Lemma port_writes_refused_witness :
  let w := addressed true true 81 in
  reg_address_written (context w) = true
  /\ i2c_add (context w) = 0x23
  /\ cmd (status w) = false
  /\ exists w',
       i2c_slave_handler zero_MESSAGE (I2C_SLAVE_RECEIVE 255) w = Some w'
       /\ board w' = board w
       /\ cmd (status w') = true.
Proof.
  intros w. do 3 (split; [reflexivity|]).
  destruct (port_writes_refused zero_MESSAGE 255 w eq_refl)
    as (w' & Hrun & Hb & Hc & _);
    [right; left; reflexivity | vm_compute; discriminate |].
  exists w'. conjs; assumption.
Defined.

Lemma port_reads_refused_witness :
  let w := addressed true false 95 in
  i2c_add (context w) = 0x22
  /\ cmd (status w) = false
  /\ exists w',
       i2c_slave_handler zero_MESSAGE I2C_SLAVE_REQUEST w = Some w'
       /\ board w' = board w
       /\ cmd (status w') = true.
Proof.
  intros w. do 2 (split; [reflexivity|]).
  destruct (port_reads_refused zero_MESSAGE w)
    as (w' & Hrun & Hb & _ & Hc & _);
    [right; reflexivity | vm_compute; discriminate |].
  exists w'. conjs; assumption.
Defined.

(** ** The trace texts fit the buffer *)

Lemma string_length_app (s1 s2 : string) :
  String.length (s1 ++ s2) = (String.length s1 + String.length s2)%nat.
Proof.
  induction s1 as [|c s1 IH]; cbn [append String.length];
    [reflexivity | rewrite IH; reflexivity].
Qed.

Lemma string_of_list_ascii_length l :
  String.length (string_of_list_ascii l) = length l.
Proof.
  induction l as [|c l IH]; cbn [string_of_list_ascii String.length length];
    [reflexivity | rewrite IH; reflexivity].
Qed.

Lemma list_ascii_of_string_length s :
  length (list_ascii_of_string s) = String.length s.
Proof.
  induction s as [|c s IH]; cbn [list_ascii_of_string String.length length];
    [reflexivity | rewrite IH; reflexivity].
Qed.

(** A number below [base ^ k] has at most [k] digits. *)
Lemma digits_length fuel : forall base n acc (k : nat),
  2 <= base -> 0 <= n < base ^ Z.of_nat k -> (1 <= k)%nat ->
  (length (digits fuel base n acc) <= length acc + k)%nat.
Proof.
  induction fuel as [|fuel IH]; intros base n acc k Hb Hn Hk; cbn [digits]; [lia|].
  destruct (Z.eqb_spec (n / base) 0) as [Hz | Hnz]; [cbn [length]; lia|].
  destruct k as [|[|k]]; [lia | | ].
  - exfalso. apply Hnz. apply Z.div_small. rewrite Z.pow_1_r in Hn. lia.
  - specialize (IH base (n / base) (digit_char (n mod base) :: acc) (S k) Hb).
    cbn [length] in IH. etransitivity; [apply IH|]; try lia.
    split; [apply Z.div_pos; lia|].
    apply Z.div_lt_upper_bound; [lia|].
    replace (Z.of_nat (S (S k))) with (Z.succ (Z.of_nat (S k))) in Hn by lia.
    rewrite Z.pow_succ_r in Hn by lia. lia.
Qed.

Lemma render_length base width n (k : nat) :
  2 <= base -> 0 <= n < base ^ Z.of_nat k -> (1 <= k)%nat ->
  (String.length (render base width n) <= Nat.max width k)%nat.
Proof.
  intros Hb Hn Hk. unfold render. rewrite string_of_list_ascii_length.
  pose proof (digits_length 32 base n [] k Hb Hn Hk) as Hd.
  cbn [length] in Hd. rewrite length_app, length_replicate. lia.
Qed.

Lemma render_dec_byte width n :
  byte n -> (width <= 3)%nat ->
  (String.length (render 10 width n) <= 3)%nat.
Proof.
  intros Hn Hw. pose proof (render_length 10 width n 3) as H.
  unfold byte in Hn. change (10 ^ Z.of_nat 3) with 1000 in H. lia.
Qed.

Lemma render_hex_byte width n :
  byte n -> (width <= 2)%nat ->
  (String.length (render 16 width n) <= 2)%nat.
Proof.
  intros Hn Hw. pose proof (render_length 16 width n 2) as H.
  unfold byte in Hn. change (16 ^ Z.of_nat 2) with 256 in H. lia.
Qed.

Lemma render_hex_mask width v :
  byte v -> (width <= 5)%nat ->
  (String.length (render 16 width (Z.shiftl v PORT1_OFFSET)) <= 5)%nat.
Proof.
  intros Hv Hw.
  pose proof (render_length 16 width (Z.shiftl v PORT1_OFFSET) 5) as H.
  unfold byte in Hv. change (16 ^ Z.of_nat 5) with 1048576 in H.
  unfold PORT1_OFFSET in *. rewrite Z.shiftl_mul_pow2 in * by lia.
  change (2 ^ 10) with 1024 in *. lia.
Qed.

Lemma sprintf_wf rec f args :
  wf_MESSAGE rec = true ->
  (String.length (format f args) < 64)%nat ->
  wf_MESSAGE (sprintf rec f args) = true.
Proof.
  unfold wf_MESSAGE, sprintf. cbn [data].
  change (Z.to_nat MESSAGE_SIZE) with 64%nat.
  intros Hrec%Nat.eqb_eq Hfit. apply Nat.eqb_eq.
  rewrite length_app, length_drop, length_app, list_ascii_of_string_length.
  cbn [length]. lia.
Qed.

Lemma array_set_bytes l i x :
  Forall byte l -> byte x -> Forall byte (array_set l i x).
Proof.
  intros Hl Hx. unfold array_set. destruct (i <? 0); [exact Hl|].
  apply Forall_insert; assumption.
Qed.

Lemma array_get_byte l i : Forall byte l -> byte (array_get 0 l i).
Proof.
  intros Hl. unfold array_get. destruct (i <? 0); [unfold byte; lia|].
  destruct (l !! Z.to_nat i) as [x|] eqn:Hx; cbn [default];
    [exact (Forall_lookup_1 _ _ _ _ Hl Hx) | unfold byte; lia].
Qed.

(** Bounds of the numbers the handler prints. *)
Ltac solve_regs :=
  cbn [store context with_context with_queue with_board with_status log sdk
       raise_cmd_flag set_reg reg];
  first [ assumption
        | apply array_set_bytes; [solve_regs | apply to_u8_byte] ].

Ltac solve_byte :=
  first [ assumption
        | apply to_u8_byte
        | apply b2z_byte
        | solve [unfold byte; lia]
        | apply array_get_byte; solve_regs ].

(** The length of a formatted text, from the bounds of its numbers. *)
Ltac text_fits :=
  cbn [format hd tl];
  change (width_of "2"%char) with 2%nat;
  change (width_of "1"%char) with 1%nat;
  repeat first [ rewrite string_length_app | progress cbn [String.length] ];
  repeat match goal with
         | |- context [String.length (render ?b ?w ?n)] =>
             let L := fresh "L" in
             let HL := fresh "HL" in
             first
               [ assert (HL : (String.length (render b w n) <= 3)%nat)
                   by (apply render_dec_byte; [solve_byte | lia])
               | assert (HL : (String.length (render b w n) <= 2)%nat)
                   by (apply render_hex_byte; [solve_byte | lia])
               | assert (HL : (String.length (render b w n) <= 5)%nat)
                   by (apply render_hex_mask; [solve_byte | lia]) ];
             revert HL; generalize (String.length (render b w n));
             intros L HL
         end;
  lia.

Section TraceFits.
Context {hw : Type} {SDK : PicoSDK hw} {Config : UserConfig}.

Lemma log_slots rec (w : device hw) :
  slots_ok (messages (queue w)) -> wf_MESSAGE rec = true ->
  slots_ok (messages (queue (log rec w))).
Proof.
  intros Hs Hrec.
  exact (queue_step_slots (Enque rec) (queue w) Hs Hrec).
Qed.

Lemma cur_byte (w : device hw) : Forall byte (reg (context w)) -> byte (cur w).
Proof. intros H. unfold cur. apply array_get_byte, H. Qed.

Lemma write_command_fits rec (w : device hw) :
  wf_MESSAGE rec = true ->
  slots_ok (messages (queue w)) ->
  Forall byte (reg (context w)) ->
  byte (i2c_add (context w)) ->
  slots_ok (messages (queue (write_command rec w))).
Proof.
  intros Hrec Hslots Hregs Hid.
  pose proof (cur_byte w Hregs) as Hcur.
  unfold write_command.
  split_switch; cbn [fst snd]; try exact Hslots;
    (apply log_slots; [exact Hslots | apply sprintf_wf; [exact Hrec|]]);
    change (cur (sdk ?f w)) with (cur w); text_fits.
Qed.

Lemma read_command_fits rec (w : device hw) :
  wf_MESSAGE rec = true ->
  slots_ok (messages (queue w)) ->
  Forall byte (reg (context w)) ->
  byte (i2c_add (context w)) ->
  wf_MESSAGE (read_command rec w).1 = true
  /\ slots_ok (messages (queue (read_command rec w).2))
  /\ Forall byte (reg (context (read_command rec w).2)).
Proof.
  intros Hrec Hslots Hregs Hid.
  pose proof (cur_byte w Hregs) as Hcur.
  unfold read_command.
  split_switch; cbn [fst snd];
    (split; [|split]);
    try exact Hrec; try exact Hslots; try exact Hregs;
    try solve_regs;
    try (apply log_slots; [exact Hslots|]);
    (apply sprintf_wf; [exact Hrec|]);
    try change (cur (store ?v w)) with (array_get 0 (reg (context (store v w)))
                                         (reg_address (context w)));
    text_fits.
Qed.

Lemma store_context_ok v (w : device hw) :
  context_ok (context w) -> context_ok (context (store v w)).
Proof.
  intros (Hlen & Hregs & Ha & Hid). unfold context_ok, store.
  cbn [context with_context set_reg reg reg_address i2c_add].
  rewrite array_set_length. conjs; try assumption.
  apply array_set_bytes; [exact Hregs | apply to_u8_byte].
Qed.

Lemma i2c_slave_handler_fits rec e (w w' : device hw) :
  wf_MESSAGE rec = true ->
  slots_ok (messages (queue w)) ->
  context_ok (context w) ->
  i2c_slave_handler rec e w = Some w' ->
  slots_ok (messages (queue w')) /\ context_ok (context w').
Proof.
  intros Hrec Hslots Hctx Hrun.
  destruct e as [rx| |]; cbn [i2c_slave_handler] in Hrun.
  - destruct (reg_address_written (context w)); cbn [negb] in Hrun.
    + destruct (in_reg (reg_address (context w))); [|discriminate].
      injection Hrun as <-.
      pose proof (store_context_ok rx w Hctx) as Hctx'.
      rewrite write_command_context. split; [|exact Hctx'].
      destruct Hctx' as (_ & Hregs & _ & Hid).
      apply write_command_fits; assumption.
    + injection Hrun as <-. split; [exact Hslots|].
      destruct Hctx as (Hlen & Hregs & Ha & Hid).
      unfold context_ok. cbn. conjs; try assumption. apply to_u8_byte.
  - destruct (in_reg (reg_address (context w))); [|discriminate].
    injection Hrun as <-.
    destruct Hctx as (Hlen & Hregs & Ha & Hid).
    destruct (read_command_fits rec w Hrec Hslots Hregs Hid)
      as (Hrec1 & Hslots1 & Hregs1).
    destruct (read_command_frame rec w)
      as (Ha1 & _ & _ & Hid1 & Hlen1 & _).
    split.
    + apply log_slots; [exact Hslots1|].
      apply sprintf_wf; [exact Hrec1|].
      pose proof (cur_byte _ Hregs1) as Hcur.
      change (cur (i2c_write_byte ?b ?x)) with (cur x).
      text_fits.
    + unfold context_ok. cbn [context log with_queue i2c_write_byte with_i2c0_tx].
      rewrite Ha1, Hid1, Hlen1. conjs; assumption.
  - injection Hrun as <-. split; [exact Hslots | exact Hctx].
Qed.

(** With a buffer of 64 bytes, a queue of 64 slots of 64 bytes and a
    context of byte values, every text the handler formats is shorter
    than the buffer: after the call every slot of the queue still holds
    64 bytes and the context still holds byte values. *)
Theorem handler_records_fit rec e (w w' : device hw) :
  wf_MESSAGE rec = true ->
  slots_ok (messages (queue w)) ->
  context_ok (context w) ->
  i2c_slave_handler rec e w = Some w' ->
  slots_ok (messages (queue w')) /\ context_ok (context w').
Proof. exact (i2c_slave_handler_fits rec e w w'). Qed.

End TraceFits.

Lemma handler_records_fit_witness :
  let w := addressed true false 61 in
  wf_MESSAGE zero_MESSAGE = true
  /\ wf_messages (messages (queue w)) = true
  /\ exists w',
       i2c_slave_handler zero_MESSAGE (I2C_SLAVE_RECEIVE 255) w = Some w'
       /\ slots_ok (messages (queue w'))
       /\ c_string <$> (data <$> contents (queue w'))
          = ["Cmd 61, Set Pad State to Gpio: 255 ,State: 0x0 "%string].
Proof.
  intros w. split; [reflexivity|]. split; [vm_compute; reflexivity|].
  assert (Hslots : slots_ok (messages (queue w)))
    by (apply wf_messages_spec; vm_compute; reflexivity).
  assert (Hctx : context_ok (context w)).
  { unfold context_ok, byte. conjs; try (vm_compute; reflexivity);
      try (vm_compute; discriminate).
    apply Forall_forall. intros x Hx.
    vm_compute in Hx. apply list_elem_of_In in Hx.
    repeat (destruct Hx as [<- | Hx]; [lia|]). destruct Hx. }
  destruct (i2c_slave_handler zero_MESSAGE (I2C_SLAVE_RECEIVE 255) w)
    as [w'|] eqn:Hrun; [|vm_compute in Hrun; discriminate].
  destruct (handler_records_fit zero_MESSAGE (I2C_SLAVE_RECEIVE 255) w w'
              eq_refl Hslots Hctx Hrun) as [Hs _].
  exists w'. split; [reflexivity|]. split; [exact Hs|].
  vm_compute in Hrun. injection Hrun as <-. vm_compute. reflexivity.
Defined.

(** ** What is printed is what was formatted *)

Lemma c_string_text (text rest : list ascii) :
  forallb (fun c => negb (Ascii.eqb c NUL)) text = true ->
  c_string (text ++ NUL :: rest) = string_of_list_ascii text.
Proof.
  induction text as [|c text IH]; cbn [app c_string forallb string_of_list_ascii].
  - intros _. rewrite Ascii.eqb_refl. reflexivity.
  - intros [Hc Ht]%andb_true_iff. apply negb_true_iff in Hc. rewrite Hc.
    rewrite (IH Ht). reflexivity.
Qed.

(** [printf("%s")] of a buffer that [sprintf] filled gives back the text
    that was formatted, whatever the buffer held before: the bytes behind
    the terminator are never printed. So the line the main loop prints for
    a record is the identity of the device followed by that text. *)
Theorem printed_text_is_formatted_text rec f args i2c_add :
  no_NUL (format f args) = true ->
  c_string (data (sprintf rec f args)) = format f args
  /\ console_line i2c_add (sprintf rec f args)
     = (format "Pico %02x: " [i2c_add] ++ format f args)%string.
Proof.
  intros Htext. unfold no_NUL in Htext.
  assert (H : c_string (data (sprintf rec f args)) = format f args).
  { unfold sprintf. cbn [data]. rewrite <- app_assoc. cbn [app].
    rewrite c_string_text by exact Htext.
    apply string_of_list_ascii_of_string. }
  split; [exact H|]. unfold console_line. rewrite H. reflexivity.
Qed.

Lemma printed_text_is_formatted_text_witness :
  let stale := text_MESSAGE "Cmd 50, Clear pull-up, pull-down Gpio: 17,  " in
  no_NUL (format "Cmd %02d, Set Gpio: %02d " [11; 5]) = true
  /\ c_string (data (sprintf stale "Cmd %02d, Set Gpio: %02d " [11; 5]))
     = "Cmd 11, Set Gpio: 05 "%string
  /\ nth 30 (data (sprintf stale "Cmd %02d, Set Gpio: %02d " [11; 5])) NUL
     = "w"%char.
Proof.
  intros stale. split; [reflexivity|].
  split; [|vm_compute; reflexivity].
  exact (proj1 (printed_text_is_formatted_text stale
                  "Cmd %02d, Set Gpio: %02d " [11; 5] 0x22 eq_refl)).
Defined.

(** ** Boot, for every board *)

Section BootFurther.
Context {hw : Type} {SDK : PicoSDK hw} {Config : UserConfig}.

Lemma read_i2c_address_range (b : hw) :
  0x20 <= (read_i2c_address b).1 <= 0x23.
Proof.
  unfold read_i2c_address. cbv zeta. cbn [fst].
  destruct (gpio_get I2C_SLAVE_ADDRESS_IO0 _), (gpio_get I2C_SLAVE_ADDRESS_IO1 _);
    vm_compute; split; discriminate.
Qed.

Lemma configure_supported rec (w : device hw) :
  let a := i2c_add (context w) in
  let dir := if a =? 0x21 then GPIO_SLV1_DIR_MASK else GPIO_SLV2_DIR_MASK in
  let out := if a =? 0x21 then GPIO_SLV1_OUT_MASK else GPIO_SLV2_OUT_MASK in
  a = 0x21 \/ a = 0x22 \/ a = 0x23 ->
  configure rec w
  = (sprintf rec "Config for I2C address 0x%02x completed" [a],
     sdk (gpio_put_masked GPIO_SET_DIR_MASK out)
       (sdk (gpio_set_dir_masked GPIO_SET_DIR_MASK dir) w)).
Proof.
  intros a dir out Ha. unfold configure. fold a. unfold dir, out.
  destruct Ha as [-> | [-> | ->]]; reflexivity.
Qed.

Lemma boot_start_status rec (b : hw) :
  let r := boot_start rec (power_on b) in
  status r.2
  = (if watchdog_caused_reboot b then raise_watch status_clear
     else status_clear)
  /\ r.1.2 = (if watchdog_caused_reboot b then 50 else 200)
  /\ context r.2
     = set_i2c_add (context (power_on b))
         (read_i2c_address
            (stdio_init_all (gpio_init_mask GPIO_BOOT_MASK b))).1.
Proof.
  unfold boot_start. cbn [power_on board with_status].
  destruct (watchdog_caused_reboot b); conjs; reflexivity.
Qed.

Lemma main_boot_pulse rec (w : device hw) :
  pulse (main_boot rec w) = (boot_start rec w).1.2
  /\ ctr (main_boot rec w) = 0
  /\ mess (main_boot rec w) = 0.
Proof. conjs; reflexivity. Qed.


Lemma main_boot_dev rec (w : device hw) :
  let r := boot_start rec w in
  let c := configure r.1.1 r.2 in
  dev (main_boot rec w)
  = sdk (gpio_put PICO_DEFAULT_LED_PIN true)
      (sdk (gpio_set_dir PICO_DEFAULT_LED_PIN true)
         (sdk (gpio_init PICO_DEFAULT_LED_PIN)
            (setup_slave (i2c_add (context (log c.1 c.2)))
               (log c.1 c.2)))).
Proof. reflexivity. Qed.

Lemma configure_status rec (w : device hw) :
  0x20 <= i2c_add (context w) <= 0x23 ->
  status (configure rec w).2
  = (if i2c_add (context w) =? 0x20 then raise_cfg (status w) else status w).
Proof.
  intros Ha.
  assert (Hcases : i2c_add (context w) = 0x20 \/ i2c_add (context w) = 0x21
                   \/ i2c_add (context w) = 0x22 \/ i2c_add (context w) = 0x23)
    by lia.
  unfold configure.
  destruct Hcases as [-> | [-> | [-> | ->]]]; reflexivity.
Qed.

Lemma configure_fits rec (w : device hw) :
  wf_MESSAGE rec = true ->
  byte (i2c_add (context w)) ->
  wf_MESSAGE (configure rec w).1 = true.
Proof.
  intros Hrec Ha. unfold configure.
  split_switch; cbn [fst]; (apply sprintf_wf; [exact Hrec|]); text_fits.
Qed.

(** The device [main] hands to its loop, for every board: the queue, its
    slots and the context are as their C types have them, and the handler
    is registered at the identity, one of 0x20 to 0x23. *)
Lemma main_boot_well_formed rec (b : hw) :
  let w := dev (main_boot rec (power_on b)) in
  wf_MESSAGE rec = true ->
  queue_inv (queue w)
  /\ slots_ok (messages (queue w))
  /\ context_ok (context w)
  /\ 0x20 <= i2c_add (context w) <= 0x23
  /\ i2c0_slave w = Some (i2c_add (context w))
  /\ length (contents (queue w)) = 2%nat.
Proof.
  intros w Hrec.
  destruct (boot_start_device rec b) as (Hrec1 & Hadd & _ & Hq & _).
  destruct (boot_start_status rec b) as (_ & _ & Hctx).
  pose proof (read_i2c_address_range
                (stdio_init_all (gpio_init_mask GPIO_BOOT_MASK b))) as Hrange.
  set (r := boot_start rec (power_on b)) in *.
  set (a := (read_i2c_address _).1) in *.
  assert (Ha : byte a) by (unfold byte; lia).
  destruct (configure_context r.1.1 r.2) as (Hcc & Hcq & _).
  set (c := configure r.1.1 r.2) in *.
  assert (Hw : w = sdk (gpio_put PICO_DEFAULT_LED_PIN true)
                 (sdk (gpio_set_dir PICO_DEFAULT_LED_PIN true)
                    (sdk (gpio_init PICO_DEFAULT_LED_PIN)
                       (setup_slave (i2c_add (context (log c.1 c.2)))
                          (log c.1 c.2)))))
    by reflexivity.
  assert (Hwc : context w = context r.2) by (rewrite Hw; exact Hcc).
  assert (Hwq : queue w = (enque c.1 (enque r.1.1 (init_queue zero_queue)).2).2).
  { rewrite Hw. change (queue _) with ((enque c.1 (queue c.2)).2).
    rewrite Hcq, Hq. reflexivity. }
  assert (Hr1 : wf_MESSAGE r.1.1 = true).
  { rewrite Hrec1. apply sprintf_wf; [exact Hrec|]. text_fits. }
  assert (Hc1 : wf_MESSAGE c.1 = true).
  { apply configure_fits; [exact Hr1|]. rewrite Hadd. exact Ha. }
  split; [rewrite Hwq; apply enque_inv, enque_inv, init_queue_inv|].
  split.
  { rewrite Hwq.
    apply (queue_step_slots (Enque c.1)); [|exact Hc1].
    apply (queue_step_slots (Enque r.1.1)); [|exact Hr1].
    apply init_queue_slots. vm_compute. reflexivity. }
  split.
  { rewrite Hwc, Hctx. unfold context_ok.
    cbn [set_i2c_add power_on context reg reg_address i2c_add].
    conjs; [apply length_replicate | | unfold byte; lia | exact Ha].
    apply Forall_replicate. unfold byte. lia. }
  split; [rewrite Hwc, Hadd; exact Hrange|].
  split; [rewrite Hw; reflexivity|].
  rewrite Hwq. reflexivity.
Qed.


(** When the address read from the straps is 0x21, 0x22 or 0x23, boot
    leaves [status.cfg] clear, makes the direction and output calls of
    the switch with the masks of that identity (those of the IO slave for
    0x21, of the relay slave for 0x22 and 0x23), registers the handler at
    the address, queues the boot record and the completion record, and
    the first turn of the main loop prints both and empties the queue. *)
Theorem boot_with_supported_identity rec (b : hw) :
  let w := dev (main_boot rec (power_on b)) in
  let a := i2c_add (context w) in
  let dir := if a =? 0x21 then GPIO_SLV1_DIR_MASK else GPIO_SLV2_DIR_MASK in
  let out := if a =? 0x21 then GPIO_SLV1_OUT_MASK else GPIO_SLV2_OUT_MASK in
  let boot_rec :=
    sprintf rec "Pico Slave boot for I2C address 0x%02x" [a] in
  let config_rec :=
    sprintf boot_rec "Config for I2C address 0x%02x completed" [a] in
  a = 0x21 \/ a = 0x22 \/ a = 0x23 ->
  cfg (status w) = false
  /\ board w = configured_board dir out b
  /\ i2c0_slave w = Some a
  /\ contents (queue w) = [boot_rec; config_rec]
  /\ exists s1,
       main 1 rec b = Some s1
       /\ current_load (queue (dev s1)) = 0
       /\ stdout (dev s1)
          = [console_line a config_rec; console_line a boot_rec;
             format "Slave Version: %d.%d"
               [IO_SLAVE_VERSION_MAJOR; IO_SLAVE_VERSION_MINOR]].
Proof.
  intros w a dir out boot_rec config_rec Hsup.
  pose proof (main_boot_identity rec (power_on b)) as Ha.
  fold w in Ha. fold a in Ha.
  destruct (boot_start_device rec b) as (Hrec & Hadd & Hboard & Hq & Hcfg & Hout).
  set (r := boot_start rec (power_on b)) in *.
  rewrite <- Ha in Hadd. rewrite <- Hadd in Hrec. fold boot_rec in Hrec.
  assert (Hconf : configure r.1.1 r.2
                  = (config_rec,
                     sdk (gpio_put_masked GPIO_SET_DIR_MASK out)
                       (sdk (gpio_set_dir_masked GPIO_SET_DIR_MASK dir) r.2))).
  { rewrite configure_supported by (rewrite <- Ha; exact Hsup).
    rewrite <- Ha, Hrec. reflexivity. }
  assert (Hw : w = sdk (gpio_put PICO_DEFAULT_LED_PIN true)
                 (sdk (gpio_set_dir PICO_DEFAULT_LED_PIN true)
                    (sdk (gpio_init PICO_DEFAULT_LED_PIN)
                       (setup_slave a
                          (log config_rec
                             (sdk (gpio_put_masked GPIO_SET_DIR_MASK out)
                                (sdk (gpio_set_dir_masked GPIO_SET_DIR_MASK dir)
                                   r.2))))))).
  { unfold a, w, main_boot. fold r. cbn [dev]. rewrite Hconf. reflexivity. }
  assert (Hqw : queue w
                = (enque config_rec
                     (enque boot_rec (init_queue zero_queue)).2).2).
  { rewrite Hw. change (queue _) with ((enque config_rec (queue r.2)).2).
    rewrite Hq, Hrec. reflexivity. }
  assert (Hinv : queue_inv (queue w)).
  { rewrite Hqw. apply enque_inv, enque_inv, init_queue_inv. }
  assert (Hcont : contents (queue w) = [boot_rec; config_rec])
    by (rewrite Hqw; reflexivity).
  split; [rewrite Hw; exact Hcfg|].
  split; [unfold configured_board; cbv zeta; rewrite <- Hboard, Hw; reflexivity|].
  split; [rewrite Hw; reflexivity|].
  split; [exact Hcont|].
  unfold main.
  destruct (main_loop_prints (main_boot rec (power_on b)) Hinv)
    as (s1 & Hrun & Hempty & Hprint); [cbn; lia|].
  exists s1. cbn [main_loops]. rewrite Hrun.
  split; [reflexivity|]. split; [exact Hempty|].
  rewrite Hprint. fold w. fold a. rewrite Hcont.
  rewrite Hw. change (stdout _) with (stdout r.2).
  rewrite Hout. reflexivity.
Qed.

(** The status byte and the blink period after boot, for every board:
    bit 0 ([cfg]) is set exactly when the identity is 0x20, the one
    address of the four the straps can give that the switch does not
    know; bit 3 ([watch]) is set exactly when the watchdog caused the
    reboot, and then the limit of the blink counter is 50 instead of 200;
    no other flag is set; the counters start at zero and no transaction
    is open. *)
Theorem boot_status_and_pulse rec (b : hw) :
  let s := main_boot rec (power_on b) in
  let a := i2c_add (context (dev s)) in
  all_flags (status (dev s))
  = Z.b2z (a =? 0x20) + 8 * Z.b2z (watchdog_caused_reboot b)
  /\ pulse s = (if watchdog_caused_reboot b then 50 else 200)
  /\ ctr s = 0
  /\ mess s = 0
  /\ reg_address_written (context (dev s)) = false.
Proof.
  intros s a.
  pose proof (main_boot_identity rec (power_on b)) as Ha.
  fold s in Ha. fold a in Ha.
  destruct (boot_start_device rec b) as (_ & Hadd & _).
  destruct (boot_start_status rec b) as (Hst & Hpulse & Hctx).
  pose proof (read_i2c_address_range
                (stdio_init_all (gpio_init_mask GPIO_BOOT_MASK b))) as Hrange.
  set (r := boot_start rec (power_on b)) in *.
  rewrite <- Hadd, <- Ha in Hrange.
  assert (Hs : status (dev s)
               = (if a =? 0x20 then raise_cfg (status r.2) else status r.2)).
  { change (status (dev s)) with (status (configure r.1.1 r.2).2).
    rewrite Ha. apply configure_status. rewrite <- Ha. exact Hrange. }
  assert (Hc : context (dev s) = context r.2).
  { change (context (dev s)) with (context (configure r.1.1 r.2).2).
    apply configure_context. }
  split.
  { rewrite Hs, Hst.
    destruct (a =? 0x20), (watchdog_caused_reboot b); reflexivity. }
  split; [exact Hpulse|].
  split; [reflexivity|]. split; [reflexivity|].
  rewrite Hc, Hctx. reflexivity.
Qed.

End BootFurther.

Lemma boot_with_supported_identity_witness :
  let b := Rp2040.strapped false true in
  let w := dev (main_boot zero_MESSAGE (power_on b)) in
  i2c_add (context w) = 0x21
  /\ cfg (status w) = false
  /\ board w = configured_board GPIO_SLV1_DIR_MASK GPIO_SLV1_OUT_MASK b
  /\ Rp2040.gpio_oe (board w) = Z.shiftl 1 28 + Z.shiftl 1 25
  /\ i2c0_slave w = Some 0x21
  /\ exists s1,
       main 1 zero_MESSAGE b = Some s1
       /\ stdout (dev s1)
          = ["Pico 21: Config for I2C address 0x21 completed";
             "Pico 21: Pico Slave boot for I2C address 0x21";
             "Slave Version: 1.0"]%string.
Proof.
  intros b w.
  destruct (boot_with_supported_identity zero_MESSAGE b)
    as (Hcfg & Hboard & Hslave & _ & s1 & Hrun & _ & Hout);
    [left; vm_compute; reflexivity|].
  split; [reflexivity|]. split; [exact Hcfg|]. split; [exact Hboard|].
  split; [reflexivity|]. split; [exact Hslave|].
  exists s1. split; [exact Hrun | exact Hout].
Defined.

(** ** The loop of [main] *)

Section MainLoop.
Context {hw : Type} {SDK : PicoSDK hw} {Config : UserConfig}.


End MainLoop.


(** ** The devices the firmware reaches *)

Section Reachable.
Context {hw : Type} {SDK : PicoSDK hw} {Config : UserConfig}.

Lemma occur_well_formed o (w w' : device hw) :
  wf_occurrence o = true ->
  queue_inv (queue w) ->
  slots_ok (messages (queue w)) ->
  context_ok (context w) ->
  occur o w = Some w' ->
  queue_inv (queue w')
  /\ slots_ok (messages (queue w'))
  /\ context_ok (context w')
  /\ i2c_add (context w') = i2c_add (context w)
  /\ i2c0_slave w' = i2c0_slave w.
Proof.
  intros Hwf Hinv Hslots Hctx Hrun.
  split; [exact (occur_queue_inv o w w' Hinv Hrun)|].
  destruct o as [rec e | b]; cbn [occur wf_occurrence] in *.
  - destruct (i2c_slave_handler_fits rec e w w' Hwf Hslots Hctx Hrun)
      as [Hs Hc].
    destruct (handler_frame rec e w w' Hrun) as (Hid & _ & _ & Hsl & _).
    conjs; assumption.
  - injection Hrun as <-. conjs; try assumption; reflexivity.
Qed.

Lemma run_well_formed os : forall w w' : device hw,
  forallb wf_occurrence os = true ->
  queue_inv (queue w) ->
  slots_ok (messages (queue w)) ->
  context_ok (context w) ->
  run os w = Some w' ->
  queue_inv (queue w')
  /\ slots_ok (messages (queue w'))
  /\ context_ok (context w')
  /\ i2c_add (context w') = i2c_add (context w)
  /\ i2c0_slave w' = i2c0_slave w.
Proof.
  induction os as [|o os IH]; intros w w' Hwf Hinv Hslots Hctx Hrun;
    cbn [run forallb] in *.
  - injection Hrun as <-. conjs; try assumption; reflexivity.
  - apply andb_true_iff in Hwf as [Ho Hos].
    destruct (occur o w) as [w1|] eqn:Hw1; [|discriminate].
    destruct (occur_well_formed o w w1 Ho Hinv Hslots Hctx Hw1)
      as (Hinv1 & Hslots1 & Hctx1 & Hid1 & Hsl1).
    destruct (IH w1 w' Hos Hinv1 Hslots1 Hctx1 Hrun)
      as (Hinv' & Hslots' & Hctx' & Hid' & Hsl').
    rewrite Hid', Hsl', Hid1, Hsl1. conjs; try assumption; reflexivity.
Qed.

(** Every device the firmware can reach from power-on by booting and then
    serving handler calls (each with a buffer of 64 bytes) and changes of
    the board keeps its data inside its C types: the counters of the queue
    are in range, each of its 64 slots holds 64 bytes, the 128 cells, the
    selected address and the identity are bytes, the identity is one of
    0x20 to 0x23 and the handler is registered at it. The main loop can
    then take a turn, which ends with the queue empty. *)
Theorem reachable_device_well_formed rec (b : hw) os w' :
  wf_MESSAGE rec = true ->
  forallb wf_occurrence os = true ->
  run os (dev (main_boot rec (power_on b))) = Some w' ->
  queue_inv (queue w')
  /\ slots_ok (messages (queue w'))
  /\ context_ok (context w')
  /\ 0x20 <= i2c_add (context w') <= 0x23
  /\ i2c0_slave w' = Some (i2c_add (context w'))
  /\ forall c m p, exists s',
       main_loop {| ctr := c; mess := m; pulse := p; dev := w' |} = Some s'
       /\ current_load (queue (dev s')) = 0.
Proof.
  intros Hrec Hos Hrun.
  destruct (main_boot_well_formed rec b Hrec)
    as (Hinv & Hslots & Hctx & Hrange & Hsl & _).
  destruct (run_well_formed os _ w' Hos Hinv Hslots Hctx Hrun)
    as (Hinv' & Hslots' & Hctx' & Hid & Hsl').
  rewrite Hsl', Hid.
  split; [exact Hinv'|]. split; [exact Hslots'|]. split; [exact Hctx'|].
  split; [exact Hrange|]. split; [exact Hsl|].
  intros c m p.
  destruct (main_loop_runs {| ctr := c; mess := m; pulse := p; dev := w' |}
              Hinv') as (s' & Hs' & Hempty & _).
  exists s'. split; assumption.
Qed.

End Reachable.

Lemma reachable_device_well_formed_witness :
  let b := Rp2040.strapped true false in
  let os :=
    write_transaction zero_MESSAGE zero_MESSAGE zero_MESSAGE 11 5
    ++ [Env (Rp2040.strapped true true)]
    ++ read_transaction zero_MESSAGE zero_MESSAGE zero_MESSAGE 15 true in
  wf_MESSAGE zero_MESSAGE = true
  /\ forallb wf_occurrence os = true
  /\ exists w',
       run os (dev (main_boot zero_MESSAGE (power_on b))) = Some w'
       /\ queue_inv (queue w')
       /\ slots_ok (messages (queue w'))
       /\ context_ok (context w')
       /\ i2c0_slave w' = Some (i2c_add (context w'))
       /\ i2c_add (context w') = 0x22.
Proof.
  intros b os.
  split; [reflexivity|]. split; [reflexivity|].
  destruct (run os (dev (main_boot zero_MESSAGE (power_on b))))
    as [w'|] eqn:Hrun; [|vm_compute in Hrun; discriminate].
  destruct (reachable_device_well_formed zero_MESSAGE b os w'
              eq_refl eq_refl Hrun) as (Hinv & Hslots & Hctx & _ & Hsl & _).
  exists w'. split; [reflexivity|]. split; [exact Hinv|].
  split; [exact Hslots|]. split; [exact Hctx|]. split; [exact Hsl|].
  vm_compute in Hrun. injection Hrun as <-. reflexivity.
Defined.

(** ** The address byte and the size of the register array *)

Section Bounds.
Context {hw : Type} {SDK : PicoSDK hw} {Config : UserConfig}.



End Bounds.

